(** * Connection and client management of the Docker provider

    A shallow embedding of [internal/provider/config.go]: the [Config]
    structure, its fingerprint [Hash], the TLS material loader
    [buildHTTPClientFromBytes], the two client builders [NewClient] and
    [MakeClient], the configuration resolver [getConfig] and
    [normalizeRegistryAddress]; and of the refresh function of the volume
    resource in [internal/provider/resource_docker_volume.go].

    Go slices of strings are modelled as headers (pointer, length) into a
    store of backing arrays, so that the aliasing created by copying a
    [Config] struct is visible.  Calls into other packages (crypto/tls,
    crypto/x509, docker/cli connhelper, docker/client, path/filepath) are
    calls into an environment record, and every such call is recorded in a
    trace of events. *)

From Stdlib Require Import ZArith Strings.Byte Strings.Ascii.
From stdpp Require Import gmap strings list fin_maps.

Local Open Scope Z_scope.

(** ** Strings and bytes *)

(** A Go string is a sequence of bytes; [[]byte(s)] yields them. *)
Definition bytes_of_string (s : string) : list byte := String.list_byte_of_string s.

(** [strings.Join(elems, sep)]. *)
Fixpoint strings_Join (elems : list string) (sep : string) : string :=
  match elems with
  | [] => ""
  | [a] => a
  | a :: rest => a +:+ sep +:+ strings_Join rest sep
  end.

(** [strings.HasPrefix(s, prefix)]. *)
Definition strings_HasPrefix (s pre : string) : bool := String.prefix pre s.

(** Go compares strings byte by byte; [sort.Strings] sorts ascending. *)
Fixpoint insert_sorted (x : string) (l : list string) : list string :=
  match l with
  | [] => [x]
  | y :: l' => if String.leb x y then x :: l else y :: insert_sorted x l'
  end.

Fixpoint sorted_strings (l : list string) : list string :=
  match l with
  | [] => []
  | x :: l' => insert_sorted x (sorted_strings l')
  end.

(** ** hash/fnv: the 64-bit FNV-1 hash returned by [fnv.New64] *)

Module fnv.

Definition offset64 : Z := 14695981039346656037.
Definition prime64 : Z := 1099511628211.
Definition wrap64 (z : Z) : Z := z mod 2 ^ 64.

(** One round of [sum64.Write]: [hash *= prime64; hash ^= sum64(c)]. *)
Definition step (hash : Z) (c : byte) : Z :=
  Z.lxor (wrap64 (hash * prime64)) (Z.of_N (Byte.to_N c)).

Definition Write (hash : Z) (data : list byte) : Z := fold_left step data hash.

(** [h := fnv.New64(); h.Write(data); h.Sum64()]. *)
Definition Sum64_of (data : list byte) : Z := Write offset64 data.

(** The FNV-1a variant, which xors before it multiplies ([fnv.New64a]). *)
Definition step_a (hash : Z) (c : byte) : Z :=
  wrap64 (Z.lxor hash (Z.of_N (Byte.to_N c)) * prime64).

Definition Sum64a_of (data : list byte) : Z := fold_left step_a data offset64.

End fnv.

(** ** The store of backing arrays and slices of strings *)

Definition loc := nat.

(** The header of a [[]string]: [ptr = None] is the nil slice.  The source
    never appends to or re-slices a slice, so offset and capacity are not
    tracked. *)
Record Slice := mkSlice { ptr : option loc; len : nat }.

Definition nilSlice : Slice := mkSlice None 0.

Module Store.

Abbreviation t := (gmap loc (list string)).

(** The elements a slice header denotes in a store. *)
Definition elems (h : t) (s : Slice) : list string :=
  match ptr s with
  | None => []
  | Some l => take (len s) (default [] (h !! l))
  end.

(** Overwrite the first [length vs] cells of the slice's array. *)
Definition write (h : t) (s : Slice) (vs : list string) : t :=
  match ptr s with
  | None => h
  | Some l => alter (fun a => vs ++ drop (length vs) a) l h
  end.

(** [make([]string, n)]: a fresh array of [n] empty strings. *)
Definition make (h : t) (n : nat) : t * Slice :=
  let l := fresh (dom h) in
  (<[l := replicate n ""]> h, mkSlice (Some l) n).

(** [s[i] = v] for an index in range. *)
Definition set (h : t) (s : Slice) (i : nat) (v : string) : t :=
  match ptr s with
  | None => h
  | Some l => alter (fun a => <[i := v]> a) l h
  end.

(** The builtin [copy(dst, src)]: copies [min(len(dst), len(src))]
    elements and returns that number. *)
Definition copy (h : t) (dst src : Slice) : t * nat :=
  let n := Nat.min (len dst) (len src) in
  (write h dst (take n (elems h src)), n).

(** [sort.Strings(s)] sorts the slice in place. *)
Definition sort_Strings (h : t) (s : Slice) : t :=
  write h s (sorted_strings (elems h s)).

End Store.

(** ** Config *)

Record Config := mkConfig {
  Host : string;
  SSHOpts : Slice;
  Ca : string;
  Cert : string;
  Key : string;
  CertPath : string
}.

(** [Config.Hash]: the local [SSHOpts] is declared nil, [copy] fills it
    from [c.SSHOpts], it is sorted, and the six parts are joined and
    hashed. *)
Definition Hash_input (h : Store.t) (c : Config) : string :=
  let SSHOpts0 := nilSlice in
  let '(h1, _) := Store.copy h SSHOpts0 (SSHOpts c) in
  let h2 := Store.sort_Strings h1 SSHOpts0 in
  strings_Join
    [Host c; Ca c; Cert c; Key c; CertPath c;
     strings_Join (Store.elems h2 SSHOpts0) "|"]
    "|".

Definition Hash (h : Store.t) (c : Config) : Z :=
  fnv.Sum64_of (bytes_of_string (Hash_input h c)).

(** [s != ""]. *)
Definition nonempty (s : string) : bool :=
  match s with
  | EmptyString => false
  | String _ _ => true
  end.

(** Go's [error] values are built here with [fmt.Errorf] and [errors.New]
    only; an error is its message. *)
Definition error := string.

(** ** The override block read by [NewConfig]

    [d.GetOk("override")] yields the list of override blocks of the
    resource (the schema allows at most one) and reports [ok] when the list
    is not empty; each block is a map with the six typed keys below. *)
Record OverrideBlock := mkOverride {
  o_host : string;
  o_ssh_opts : list string;
  o_ca_material : string;
  o_cert_material : string;
  o_key_material : string;
  o_cert_path : string
}.

Record ResourceData := mkResourceData { override : list OverrideBlock }.

(** [for i, s := range SSHOptsI { SSHOpts[i] = s.(string) }], from index [i]. *)
Fixpoint fill_from (h : Store.t) (s : Slice) (i : nat) (vs : list string) : Store.t :=
  match vs with
  | [] => h
  | v :: vs' => fill_from (Store.set h s i v) s (S i) vs'
  end.

Definition NewConfig (h : Store.t) (d : ResourceData) : Store.t * Config :=
  let '(h, empty) := Store.make h 0 in
  let config := mkConfig "" empty "" "" "" "" in
  match override d with
  | [] => (h, config)
  | o :: _ =>
      let SSHOptsI := o_ssh_opts o in
      let '(h, SSHOpts1) := Store.make h (length SSHOptsI) in
      let h := fill_from h SSHOpts1 0 SSHOptsI in
      (h, mkConfig (o_host o) SSHOpts1 (o_ca_material o) (o_cert_material o)
                   (o_key_material o) (o_cert_path o))
  end.

(** ** net/http and crypto/tls values built by the transport builders *)

Definition Second : Z := 1000000000.

Record net_Dialer := mkDialer { Timeout : Z; KeepAlive : Z }.

Inductive ProxyFunc := ProxyFromEnvironment.

Section Provider.

(** Values owned by the packages the provider calls into. *)
Context {Certificate CertPool DialFunc Client : Type}.

Record tls_Config := mkTLS {
  Certificates : list Certificate;
  InsecureSkipVerify : bool;
  RootCAs : option CertPool
}.

Record http_Transport := mkTransport {
  Proxy : ProxyFunc;
  DialContext : net_Dialer;
  MaxIdleConns : Z;
  IdleConnTimeout : Z;
  TLSHandshakeTimeout : Z;
  ExpectContinueTimeout : Z;
  MaxIdleConnsPerHost : Z;
  DisableKeepAlives : bool;
  TLSClientConfig : option tls_Config
}.

Record http_Client := mkHTTPClient { Transport : http_Transport }.

(** [connhelper.ConnectionHelper]. *)
Record ConnectionHelper := mkHelper {
  helper_Dialer : DialFunc;
  helper_Host : string
}.

(** The functional options passed to [client.NewClientWithOpts]. *)
Inductive Opt :=
| WithHTTPClient (httpClient : http_Client)
| WithHost (host : string)
| WithAPIVersionNegotiation
| WithTLSClientConfig (cacertPath certPath keyPath : string)
| WithDialContext (dialContext : DialFunc).

(** What the other packages answer.  [connhelper.GetConnectionHelper url]
    is [GetConnectionHelperWithSSHOpts url nil] in docker/cli, so one
    entry serves both.  A failing [NewClientWithOpts] returns a nil
    client next to its error. *)
Record Env := mkEnv {
  tls_X509KeyPair : list byte -> list byte -> Certificate + error;
  x509_AppendCertsFromPEM : list byte -> option CertPool;
  connhelper_GetConnectionHelperWithSSHOpts :
    string -> list string -> option ConnectionHelper + error;
  client_NewClientWithOpts : list Opt -> Client + error;
  client_Ping : Client -> option error;
  filepath_Join : string -> string -> string;
  runtime_GOMAXPROCS : Z
}.

(** The calls a run makes into those packages, in order. *)
Inductive Event :=
| CallX509KeyPair (certPEMBlock keyPEMBlock : list byte)
| CallAppendCertsFromPEM (caPEMCert : list byte)
| CallGetConnectionHelper (daemonURL : string) (sshFlags : list string)
| CallNewClientWithOpts (ops : list Opt)
| CallPing (cli : Client).

(** What a call of a function returning a client pointer and an error
    does: it returns the pair, or the goroutine panics. *)
Inductive Outcome :=
| Return (cli : option Client) (err : option error)
| Panic (msg : string).

Variable env : Env.

Definition defaultPooledTransport : http_Transport :=
  mkTransport ProxyFromEnvironment
    (mkDialer (30 * Second) (30 * Second))
    100 (90 * Second) (10 * Second) (1 * Second)
    (runtime_GOMAXPROCS env + 1)
    false None.

Definition defaultTransport : http_Transport :=
  let transport := defaultPooledTransport in
  mkTransport (Proxy transport) (DialContext transport)
    (MaxIdleConns transport) (IdleConnTimeout transport)
    (TLSHandshakeTimeout transport) (ExpectContinueTimeout transport)
    (-1) true (TLSClientConfig transport).

(** A [[]byte] argument may be nil ([None]). *)
Definition byte_len (b : option (list byte)) : nat :=
  match b with
  | None => 0%nat
  | Some l => length l
  end.

Definition with_TLS (tr : http_Transport) (cfg : tls_Config) : http_Transport :=
  mkTransport (Proxy tr) (DialContext tr) (MaxIdleConns tr)
    (IdleConnTimeout tr) (TLSHandshakeTimeout tr) (ExpectContinueTimeout tr)
    (MaxIdleConnsPerHost tr) (DisableKeepAlives tr) (Some cfg).

(** The second half of [buildHTTPClientFromBytes], once the key pair
    (if any) is in [certs]. *)
Definition finishHTTPClient (caPEMCert : option (list byte))
    (certs : list Certificate) : list Event * (http_Client + error) :=
  if (byte_len caPEMCert =? 0)%nat then
    ([], inl (mkHTTPClient (with_TLS defaultTransport (mkTLS certs true None))))
  else
    let ca := default [] caPEMCert in
    match x509_AppendCertsFromPEM env ca with
    | None =>
        ([CallAppendCertsFromPEM ca], inr "could not add RootCA pem")
    | Some caPool =>
        ([CallAppendCertsFromPEM ca],
         inl (mkHTTPClient
                (with_TLS defaultTransport (mkTLS certs false (Some caPool)))))
    end.

Definition buildHTTPClientFromBytes
    (caPEMCert certPEMBlock keyPEMBlock : option (list byte))
    : list Event * (http_Client + error) :=
  match certPEMBlock, keyPEMBlock with
  | Some cert, Some key =>
      match tls_X509KeyPair env cert key with
      | inr err => ([CallX509KeyPair cert key], inr err)
      | inl tlsCert =>
          let '(tr, r) := finishHTTPClient caPEMCert [tlsCert] in
          (CallX509KeyPair cert key :: tr, r)
      end
  | _, _ => finishHTTPClient caPEMCert []
  end.

(** The calls the loader may make. *)
Definition tls_call (e : Event) : Prop :=
  match e with
  | CallX509KeyPair _ _ | CallAppendCertsFromPEM _ => True
  | _ => False
  end.

(** ** The two client builders *)

Definition errPair : error := "cert_material, and key_material must be specified".
Definition errCertPath : error := "cert_path must not be specified".

(** The client and the error of a [(cli, err)] result of the client
    package. *)
Definition client_of (r : Client + error) : option Client :=
  match r with
  | inl cli => Some cli
  | inr _ => None
  end.

Definition err_of (r : Client + error) : option error :=
  match r with
  | inl _ => None
  | inr err => Some err
  end.

(** [return client.NewClientWithOpts(ops...)]. *)
Definition returnNewClient (ops : list Opt) : list Event * Outcome :=
  let r := client_NewClientWithOpts env ops in
  ([CallNewClientWithOpts ops], Return (client_of r) (err_of r)).

Definition tlsFiles (certPath : string) : Opt :=
  WithTLSClientConfig (filepath_Join env certPath "ca.pem")
                      (filepath_Join env certPath "cert.pem")
                      (filepath_Join env certPath "key.pem").

(** [Config.NewClient]. *)
Definition NewClient (h : Store.t) (c : Config) : list Event * Outcome :=
  if nonempty (Cert c) || nonempty (Key c) then
    if negb (nonempty (Cert c)) || negb (nonempty (Key c)) then
      ([], Return None (Some errPair))
    else if nonempty (CertPath c) then
      ([], Return None (Some errCertPath))
    else
      let '(tr, r) :=
        buildHTTPClientFromBytes (Some (bytes_of_string (Ca c)))
          (Some (bytes_of_string (Cert c))) (Some (bytes_of_string (Key c))) in
      match r with
      | inr err => (tr, Return None (Some err))
      | inl httpClient =>
          let '(tr', out) :=
            returnNewClient
              [WithHTTPClient httpClient; WithHost (Host c);
               WithAPIVersionNegotiation] in
          (tr ++ tr', out)
      end
  else if nonempty (CertPath c) then
    returnNewClient
      [WithHost (Host c); tlsFiles (CertPath c); WithAPIVersionNegotiation]
  else
    let sshFlags := Store.elems h (SSHOpts c) in
    let call := CallGetConnectionHelper (Host c) sshFlags in
    match connhelper_GetConnectionHelperWithSSHOpts env (Host c) sshFlags with
    | inr err => ([call], Return None (Some err))
    | inl (Some helper) =>
        let '(tr', out) :=
          returnNewClient
            [WithHost (helper_Host helper);
             WithDialContext (helper_Dialer helper);
             WithAPIVersionNegotiation] in
        (call :: tr', out)
    | inl None =>
        let '(tr', out) :=
          returnNewClient [WithHost (Host c); WithAPIVersionNegotiation] in
        (call :: tr', out)
    end.

(** ** ProviderConfig

    [DefaultConfig] is a pointer to the provider's [Config]; the struct
    it points to is never assigned to after the provider is configured,
    so it is kept by value, its [SSHOpts] header pointing into the store.
    [Hosts] and [AuthConfigs] are not read by the functions below.
    [clientCache] is the [sync.Map] from fingerprints to client pointers,
    a stored pointer being possibly nil ([None]). *)
Record ProviderConfig := mkProviderConfig {
  DefaultConfig : Config;
  clientCache : gmap Z (option Client)
}.

(** [sync.Map.LoadOrStore]: keeps an entry that is already there. *)
Definition LoadOrStore (m : gmap Z (option Client)) (k : Z)
    (v : option Client) : gmap Z (option Client) :=
  match m !! k with
  | Some _ => m
  | None => <[k := v]> m
  end.

Definition with_Host (c : Config) (v : string) : Config :=
  mkConfig v (SSHOpts c) (Ca c) (Cert c) (Key c) (CertPath c).
Definition with_Ca (c : Config) (v : string) : Config :=
  mkConfig (Host c) (SSHOpts c) v (Cert c) (Key c) (CertPath c).
Definition with_Cert (c : Config) (v : string) : Config :=
  mkConfig (Host c) (SSHOpts c) (Ca c) v (Key c) (CertPath c).
Definition with_Key (c : Config) (v : string) : Config :=
  mkConfig (Host c) (SSHOpts c) (Ca c) (Cert c) v (CertPath c).
Definition with_CertPath (c : Config) (v : string) : Config :=
  mkConfig (Host c) (SSHOpts c) (Ca c) (Cert c) (Key c) v.

(** The override part of [getConfig], applied to the struct copy
    [config] of the default. *)
Definition applyOverride (h : Store.t) (config resourceConfig : Config)
    : Store.t * Config :=
  let config :=
    if nonempty (Host resourceConfig)
    then with_Host config (Host resourceConfig) else config in
  let h :=
    if negb (len (SSHOpts resourceConfig) =? 0)%nat
    then fst (Store.copy h (SSHOpts config) (SSHOpts resourceConfig))
    else h in
  let config :=
    if nonempty (Ca resourceConfig)
    then with_Ca config (Ca resourceConfig) else config in
  let config :=
    if nonempty (Cert resourceConfig)
    then with_Cert config (Cert resourceConfig) else config in
  let config :=
    if nonempty (Key resourceConfig)
    then with_Key config (Key resourceConfig) else config in
  let config :=
    if nonempty (CertPath resourceConfig)
    then with_CertPath config (CertPath resourceConfig) else config in
  (h, config).

(** [ProviderConfig.getConfig]: [config := *c.DefaultConfig] copies the
    struct, so [config.SSHOpts] is the default's slice header. *)
Definition getConfig (c : ProviderConfig) (h : Store.t)
    (d : option ResourceData) : Store.t * Config :=
  let config := DefaultConfig c in
  let '(h, _) := Store.copy h (SSHOpts config) (SSHOpts (DefaultConfig c)) in
  match d with
  | None => (h, config)
  | Some d =>
      let '(h, resourceConfig) := NewConfig h d in
      applyOverride h config resourceConfig
  end.

(** The if/else chain of [MakeClient] after a cache miss.  It either
    returns from [MakeClient] ([inl]) or leaves the chain with the
    function's variables [dockerClient] and [err] ([inr]).  The first and
    third branch declare an [err] of their own and assign
    [dockerClient, _ = ...], so the function's [err] stays nil there. *)
Definition MakeClient_branches (config : Config)
    : list Event * (Outcome + option Client * option error) :=
  if nonempty (Cert config) || nonempty (Key config) then
    if negb (nonempty (Cert config)) || negb (nonempty (Key config)) then
      ([], inl (Return None (Some errPair)))
    else if nonempty (CertPath config) then
      ([], inl (Return None (Some errCertPath)))
    else
      let '(tr, r) :=
        buildHTTPClientFromBytes (Some (bytes_of_string (Ca config)))
          (Some (bytes_of_string (Cert config)))
          (Some (bytes_of_string (Key config))) in
      match r with
      | inr err => (tr, inl (Return None (Some err)))
      | inl httpClient =>
          let ops := [WithHTTPClient httpClient; WithHost (Host config);
                      WithAPIVersionNegotiation] in
          (tr ++ [CallNewClientWithOpts ops],
           inr (client_of (client_NewClientWithOpts env ops), None))
      end
  else if nonempty (CertPath config) then
    let ops := [WithHost (Host config); tlsFiles (CertPath config);
                WithAPIVersionNegotiation] in
    let r := client_NewClientWithOpts env ops in
    ([CallNewClientWithOpts ops], inr (client_of r, err_of r))
  else if strings_HasPrefix (Host config) "ssh://" then
    let call := CallGetConnectionHelper (Host config) [] in
    match connhelper_GetConnectionHelperWithSSHOpts env (Host config) [] with
    | inr err => ([call], inl (Return None (Some err)))
    | inl (Some helper) =>
        let ops := [WithHost (helper_Host helper);
                    WithDialContext (helper_Dialer helper);
                    WithAPIVersionNegotiation] in
        ([call; CallNewClientWithOpts ops],
         inr (client_of (client_NewClientWithOpts env ops), None))
    | inl None => ([call], inr (None, None))
    end
  else
    let ops := [WithHost (Host config); WithAPIVersionNegotiation] in
    let r := client_NewClientWithOpts env ops in
    ([CallNewClientWithOpts ops], inr (client_of r, err_of r)).

Definition errPing (err : error) : error :=
  "error pinging Docker server: " +:+ err.

(** [dockerClient.Ping(ctx)] and what follows it.  [Ping] reads the
    fields of its receiver, so it panics on a nil client. *)
Definition pingAndReturn (dockerClient : option Client)
    : list Event * Outcome :=
  match dockerClient with
  | None => ([], Panic "invalid memory address or nil pointer dereference")
  | Some cli =>
      match client_Ping env cli with
      | Some err => ([CallPing cli], Return None (Some (errPing err)))
      | None => ([CallPing cli], Return (Some cli) None)
      end
  end.

(** [ProviderConfig.MakeClient]: the store and the provider after the
    call, the calls made, and the outcome.  Logging is left out. *)
Definition MakeClient (c : ProviderConfig) (h : Store.t)
    (d : option ResourceData)
    : Store.t * ProviderConfig * list Event * Outcome :=
  let '(h, config) := getConfig c h d in
  let configHash := Hash h config in
  match clientCache c !! configHash with
  | Some cached => (h, c, [], Return cached None)
  | None =>
      match MakeClient_branches config with
      | (tr, inl out) => (h, c, tr, out)
      | (tr, inr (_, Some err)) => (h, c, tr, Return None (Some err))
      | (tr, inr (dockerClient, None)) =>
          let c' :=
            mkProviderConfig (DefaultConfig c)
              (LoadOrStore (clientCache c) configHash dockerClient) in
          let '(tr', out) := pingAndReturn dockerClient in
          (h, c', tr ++ tr', out)
      end
  end.

End Provider.

Arguments tls_Config : clear implicits.
Arguments http_Transport : clear implicits.
Arguments http_Client : clear implicits.
Arguments ConnectionHelper : clear implicits.
Arguments Opt : clear implicits.
Arguments Env : clear implicits.
Arguments Event : clear implicits.
Arguments Outcome : clear implicits.
Arguments ProviderConfig : clear implicits.

(** ** Further definitions of the package *)

(** [normalizeRegistryAddress]. *)
Definition normalizeRegistryAddress (address : string) : string :=
  if strings_HasPrefix address "http://" then address
  else if negb (strings_HasPrefix address "https://")
          && negb (strings_HasPrefix address "http://")
       then "https://" +:+ address
       else address.

(** Whether the delimiter of [Hash] occurs in a field. *)
Fixpoint has_pipe (s : string) : bool :=
  match s with
  | EmptyString => false
  | String a s' => if Ascii.eqb a "|"%char then true else has_pipe s'
  end.

Definition pipe_free (c : Config) : Prop :=
  has_pipe (Host c) = false /\ has_pipe (Ca c) = false /\
  has_pipe (Cert c) = false /\ has_pipe (Key c) = false /\
  has_pipe (CertPath c) = false.

(** A slice header is backed by the store: the nil slice is empty, any
    other points to an array at least as long as the slice. *)
Definition backed (h : Store.t) (s : Slice) : Prop :=
  match ptr s with
  | None => len s = 0%nat
  | Some l => exists arr, h !! l = Some arr /\ (len s <= length arr)%nat
  end.

(** What the loop of [NewConfig] makes of an array: the cells from [i] on
    are set to [vs], one by one. *)
Fixpoint filled (i : nat) (vs : list string) (arr : list string) : list string :=
  match vs with
  | [] => arr
  | v :: vs' => filled (S i) vs' (<[i := v]> arr)
  end.

(** ** The refresh function of the volume resource

    [resourceDockerVolumeRemoveRefreshFunc] of
    [resource_docker_volume.go].  [client.VolumeRemove] belongs to
    docker/client and [containsIgnorableErrorMessage] to a file of the
    package that is not part of this development; both are parameters.
    [VolumeRemove] reads the fields of its receiver, so it panics on a nil
    client. *)

(** The resource data together with the id [d.Id()] returns. *)
Record Resource := mkResource { r_data : ResourceData; r_id : string }.

Section Volume.

Context {Certificate CertPool DialFunc Client : Type}.
Variable env : Env Certificate CertPool DialFunc Client.
Variable client_VolumeRemove : Client -> string -> bool -> option error.
Variable containsIgnorableErrorMessage : string -> string -> bool.

Inductive VolumeCall :=
| CallVolumeRemove (cli : Client) (volumeID : string) (force : bool).

(** The triple a [retry.StateRefreshFunc] returns, or a panic. *)
Inductive Refreshed :=
| RefreshReturn (result : option string) (state : string) (err : option error)
| RefreshPanic (msg : string).

Definition resourceDockerVolumeRemoveRefreshFunc (c : ProviderConfig Client)
    (h : Store.t) (d : Resource)
    : Store.t * ProviderConfig Client
      * list (Event Certificate CertPool DialFunc Client)
      * list VolumeCall * Refreshed :=
  let volumeID := r_id d in
  let '(h, c, tr, out) := MakeClient env c h (Some (r_data d)) in
  match out with
  | Panic msg => (h, c, tr, [], RefreshPanic msg)
  | Return _ (Some errC) => (h, c, tr, [], RefreshReturn None "" (Some errC))
  | Return None None =>
      (h, c, tr, [],
       RefreshPanic "invalid memory address or nil pointer dereference")
  | Return (Some client) None =>
      let forceDelete := true in
      let call := CallVolumeRemove client volumeID forceDelete in
      match client_VolumeRemove client volumeID forceDelete with
      | Some err =>
          if containsIgnorableErrorMessage err "volume is in use"
          then (h, c, tr, [call], RefreshReturn (Some volumeID) "in_use" None)
          else (h, c, tr, [call], RefreshReturn None "" (Some err))
      | None =>
          (h, c, tr, [call], RefreshReturn (Some volumeID) "removed" None)
      end
  end.

End Volume.

Arguments VolumeCall : clear implicits.
Arguments Refreshed : clear implicits.

Section Shapes.

Context {Certificate CertPool DialFunc Client : Type}.

(** The order of the options the builders pass: a host is given, API
    version negotiation comes last, and a custom HTTP client, if any,
    comes first (the source notes that it must precede the host). *)
Definition options_in_order (ops : list (Opt Certificate CertPool DialFunc))
    : Prop :=
  last ops = Some WithAPIVersionNegotiation /\
  (exists host, In (WithHost host) ops) /\
  (forall httpClient,
     In (WithHTTPClient httpClient) ops ->
     head ops = Some (WithHTTPClient httpClient)).

(** The certificates the loader puts into the TLS configuration: the
    parsed pair when both blocks are given, none otherwise. *)
Definition parsed_pair (env : Env Certificate CertPool DialFunc Client)
    (certPEMBlock keyPEMBlock : option (list byte)) : list Certificate :=
  match certPEMBlock, keyPEMBlock with
  | Some cert, Some key =>
      match tls_X509KeyPair env cert key with
      | inl tlsCert => [tlsCert]
      | inr _ => []
      end
  | _, _ => []
  end.

End Shapes.

(** ** The fingerprint as the specification words it

    A sorted copy of the SSH options is pipe-joined and appended as the
    sixth part of the hashed string. *)
Definition Hash_input_spec (h : Store.t) (c : Config) : string :=
  strings_Join
    [Host c; Ca c; Cert c; Key c; CertPath c;
     strings_Join (sorted_strings (Store.elems h (SSHOpts c))) "|"]
    "|".

(** ** Concrete scenarios

    A small instance of the environment: a certificate is the pair of PEM
    blocks it was parsed from, a pool the PEM it was filled with, a dial
    function the command line it runs, and a client the options it was
    built with. *)
Module Scenario.

Definition Certificate : Type := list byte * list byte.
Definition CertPool : Type := list byte.
Definition DialFunc : Type := list string.
Definition Client : Type := list (Opt Certificate CertPool DialFunc).

Abbreviation Helper := (option (ConnectionHelper DialFunc) + error)%type.

(** The helper of docker/cli for [ssh://] hosts: the dial function runs
    ssh with the flags in front of the remote command. *)
Definition sshHelper (daemonURL : string) (sshFlags : list string) : Helper :=
  if strings_HasPrefix daemonURL "ssh://"
  then inl (Some (mkHelper
                    (sshFlags ++ [daemonURL; "docker"; "system"; "dial-stdio"])
                    "http://docker.example.com"))
  else inl None.

Definition env (helper : string -> list string -> Helper)
    (ping : Client -> option error)
    : Env Certificate CertPool DialFunc Client :=
  mkEnv (fun cert key => inl (cert, key)) (fun ca => Some ca) helper
        (fun ops => inl ops) ping
        (fun dir file => dir +:+ "/" +:+ file) 4.

Definition pingOk (cli : Client) : option error := None.
Definition pingDown (cli : Client) : option error := Some "connection refused".

(** A provider whose default has two SSH options, stored at location 0. *)
Definition store2 : Store.t := {[ 0%nat := ["-p"; "22"] ]}.
Definition default2 : Config :=
  mkConfig "ssh://user@h" (mkSlice (Some 0%nat) 2) "" "" "" "".
Definition provider2 : ProviderConfig Client := mkProviderConfig default2 ∅.

(** A provider for a plain TCP daemon, without SSH options. *)
Definition defaultTcp : Config := mkConfig "tcp://d:2375" nilSlice "" "" "" "".
Definition providerTcp : ProviderConfig Client := mkProviderConfig defaultTcp ∅.

(** The configuration of an SSH host, without SSH options. *)
Definition defaultSsh : Config := mkConfig "ssh://user@h" nilSlice "" "" "" "".

(** The same provider once a client is cached under its fingerprint. *)
Definition clientTcp : Client :=
  [WithHost "tcp://d:2375"; WithAPIVersionNegotiation].
Definition providerTcpCached : ProviderConfig Client :=
  mkProviderConfig defaultTcp {[ Hash ∅ defaultTcp := Some clientTcp ]}.

(** An override block that sets one SSH option and nothing else. *)
Definition overrideV : ResourceData :=
  mkResourceData [mkOverride "" ["-v"] "" "" "" ""].

(** An override block that sets a certificate but no key. *)
Definition overrideCertOnly : ResourceData :=
  mkResourceData [mkOverride "" [] "" "CERT" "" ""].

(** A configuration with unsorted SSH options. *)
Definition storeOpts : Store.t := {[ 0%nat := ["-v"; "-a"] ]}.
Definition configOpts : Config :=
  mkConfig "tcp://a" (mkSlice (Some 0%nat) 2) "" "" "" "".

(** A provider with inline TLS material. *)
Definition defaultTls : Config :=
  mkConfig "tcp://d:2376" nilSlice "" "CERT" "KEY" "".
Definition providerTls : ProviderConfig Client := mkProviderConfig defaultTls ∅.

(** An environment in which no client can be constructed. *)
Definition envNoClient : Env Certificate CertPool DialFunc Client :=
  mkEnv (fun cert key => inl (cert, key)) (fun ca => Some ca) sshHelper
        (fun ops => inr "unable to parse docker host") pingOk
        (fun dir file => dir +:+ "/" +:+ file) 4.

(** A daemon that removes every volume, and one on which the volume is in
    use; an error is ignorable when it is the message looked for. *)
Definition removeOk (cli : Client) (volumeID : string) (force : bool)
    : option error := None.
Definition removeInUse (cli : Client) (volumeID : string) (force : bool)
    : option error := Some "volume is in use".
Definition sameMessage (message ignorable : string) : bool :=
  String.eqb message ignorable.

Definition volume1 : Resource := mkResource (mkResourceData []) "vol1".

End Scenario.

(** * Properties *)

(** ** The fingerprint *)

(** The golden values of Go's hash/fnv tests for [New64] and [New64a]. *)
Example fnv_golden64 :
  fnv.Sum64_of (bytes_of_string "") = 0xcbf29ce484222325 /\
  fnv.Sum64_of (bytes_of_string "a") = 0xaf63bd4c8601b7be /\
  fnv.Sum64_of (bytes_of_string "ab") = 0x08326707b4eb37b8 /\
  fnv.Sum64_of (bytes_of_string "abc") = 0xd8dcca186bafadcb /\
  fnv.Sum64a_of (bytes_of_string "abc") = 0xe71fa2190541574b.
Proof. repeat split; vm_compute; reflexivity. Qed.

Example strings_Join_examples :
  strings_Join [] "|" = "" /\ strings_Join ["a"] "|" = "a" /\
  strings_Join ["a"; ""; "b"] "|" = "a||b".
Proof. repeat split. Qed.

Example sorted_strings_example :
  sorted_strings ["b"; "a"; "B"; "ab"] = ["B"; "a"; "ab"; "b"].
Proof. reflexivity. Qed.

(** [copy] stops at the shorter of the two slices and keeps the rest of
    the destination. *)
Example copy_example :
  let h : Store.t := {[ 0%nat := ["a"; "b"; "c"]; 1%nat := ["x"] ]} in
  let dst := mkSlice (Some 0%nat) 3 in
  let src := mkSlice (Some 1%nat) 1 in
  (Store.copy h dst src).2 = 1%nat /\
  Store.elems (Store.copy h dst src).1 dst = ["x"; "b"; "c"] /\
  Store.elems (Store.copy h src dst).1 src = ["a"].
Proof. repeat split; vm_compute; reflexivity. Qed.

(** [copy] into the nil local slice copies nothing, so the sixth part of
    the hashed string is always empty. *)
Lemma Hash_input_eq (h : Store.t) (c : Config) :
  Hash_input h c =
  strings_Join [Host c; Ca c; Cert c; Key c; CertPath c; ""] "|".
Proof. reflexivity. Qed.

(** C10: two configurations with the same Host, Ca, Cert, Key and CertPath
    have the same fingerprint, whatever their SSH options and whatever the
    store holds for them; the key under which [MakeClient] loads and stores
    a client therefore does not depend on the SSH options. *)
Theorem Hash_ignores_SSHOpts (h1 h2 : Store.t) (c1 c2 : Config) :
  Host c1 = Host c2 -> Ca c1 = Ca c2 -> Cert c1 = Cert c2 ->
  Key c1 = Key c2 -> CertPath c1 = CertPath c2 ->
  Hash h1 c1 = Hash h2 c2.
Proof.
  intros HHost HCa HCert HKey HPath.
  unfold Hash. rewrite !Hash_input_eq.
  now rewrite HHost, HCa, HCert, HKey, HPath.
Qed.

Lemma Hash_ignores_SSHOpts_witness :
  Hash Scenario.storeOpts Scenario.configOpts =
  Hash ∅ (mkConfig "tcp://a" nilSlice "" "" "" "").
Proof.
  apply (Hash_ignores_SSHOpts Scenario.storeOpts ∅ Scenario.configOpts
           (mkConfig "tcp://a" nilSlice "" "" "" "")); reflexivity.
Defined.

(** C1: for the configuration with host [tcp://a] and SSH options
    [-v], [-a], the hashed string is [tcp://a|||||] and holds no SSH
    option, where the specified string is [tcp://a|||||-a|-v]; the
    fingerprint is the FNV-1 digest of the former and differs from both
    the FNV-1 and the FNV-1a digest of the latter. *)
Theorem Hash_omits_SSHOpts :
  Store.elems Scenario.storeOpts (SSHOpts Scenario.configOpts) = ["-v"; "-a"] /\
  Hash_input Scenario.storeOpts Scenario.configOpts = "tcp://a|||||" /\
  Hash_input_spec Scenario.storeOpts Scenario.configOpts = "tcp://a|||||-a|-v" /\
  Hash Scenario.storeOpts Scenario.configOpts =
    fnv.Sum64_of (bytes_of_string "tcp://a|||||") /\
  Hash Scenario.storeOpts Scenario.configOpts <>
    fnv.Sum64_of (bytes_of_string
                    (Hash_input_spec Scenario.storeOpts Scenario.configOpts)) /\
  Hash Scenario.storeOpts Scenario.configOpts <>
    fnv.Sum64a_of (bytes_of_string
                     (Hash_input_spec Scenario.storeOpts Scenario.configOpts)).
Proof.
  repeat split; try reflexivity; apply Z.eqb_neq; vm_compute; reflexivity.
Qed.

(** ** The resolver *)

(** The resolved configuration keeps the slice header of the default: its
    SSH options live in the default's backing array. *)
Lemma applyOverride_SSHOpts (h : Store.t) (config rc : Config) :
  SSHOpts (applyOverride h config rc).2 = SSHOpts config.
Proof.
  unfold applyOverride.
  destruct (nonempty (Host rc)), (nonempty (Ca rc)), (nonempty (Cert rc)),
    (nonempty (Key rc)), (nonempty (CertPath rc)); reflexivity.
Qed.

Lemma getConfig_SSHOpts_alias {Client : Type} (c : ProviderConfig Client)
    (h : Store.t) (d : option ResourceData) :
  SSHOpts (getConfig c h d).2 = SSHOpts (DefaultConfig c).
Proof.
  unfold getConfig.
  destruct (Store.copy h _ _) as [h0 n].
  destruct d as [d|]; [|reflexivity].
  destruct (NewConfig h0 d) as [h1 rc].
  apply applyOverride_SSHOpts.
Qed.

(** For the string fields the override wins when it is not empty. *)
Lemma applyOverride_strings (h : Store.t) (config rc : Config) :
  let c' := (applyOverride h config rc).2 in
  Host c' = (if nonempty (Host rc) then Host rc else Host config) /\
  Ca c' = (if nonempty (Ca rc) then Ca rc else Ca config) /\
  Cert c' = (if nonempty (Cert rc) then Cert rc else Cert config) /\
  Key c' = (if nonempty (Key rc) then Key rc else Key config) /\
  CertPath c' =
    (if nonempty (CertPath rc) then CertPath rc else CertPath config).
Proof.
  unfold applyOverride.
  destruct (nonempty (Host rc)), (nonempty (Ca rc)), (nonempty (Cert rc)),
    (nonempty (Key rc)), (nonempty (CertPath rc)); repeat split.
Qed.

Lemma NewConfig_strings (h : Store.t) (o : OverrideBlock)
    (rest : list OverrideBlock) :
  let rc := (NewConfig h (mkResourceData (o :: rest))).2 in
  Host rc = o_host o /\ Ca rc = o_ca_material o /\
  Cert rc = o_cert_material o /\ Key rc = o_key_material o /\
  CertPath rc = o_cert_path o.
Proof. repeat split. Qed.

(** X27: with an override block, each of Host, Ca, Cert, Key and CertPath
    of the resolved configuration is the block's value when that is not
    empty and the default's value otherwise. *)
Lemma getConfig_strings {Client : Type} (c : ProviderConfig Client)
    (h : Store.t) (o : OverrideBlock) (rest : list OverrideBlock) :
  let c' := (getConfig c h (Some (mkResourceData (o :: rest)))).2 in
  let def := DefaultConfig c in
  Host c' = (if nonempty (o_host o) then o_host o else Host def) /\
  Ca c' = (if nonempty (o_ca_material o) then o_ca_material o else Ca def) /\
  Cert c' =
    (if nonempty (o_cert_material o) then o_cert_material o else Cert def) /\
  Key c' =
    (if nonempty (o_key_material o) then o_key_material o else Key def) /\
  CertPath c' =
    (if nonempty (o_cert_path o) then o_cert_path o else CertPath def).
Proof.
  unfold getConfig.
  destruct (Store.copy h _ _) as [h0 n].
  destruct (NewConfig h0 _) as [h1 rc] eqn:E.
  pose proof (NewConfig_strings h0 o rest) as N. rewrite E in N. simpl in N.
  destruct N as (<- & <- & <- & <- & <-).
  apply applyOverride_strings.
Qed.

(** C3: resolving against the default with SSH options [-p], [22] and an
    override with the single SSH option [-v] writes into the default's own
    list, which afterwards holds [-v], [22]. *)
Theorem getConfig_overwrites_default_SSHOpts :
  Store.elems Scenario.store2 (SSHOpts (DefaultConfig Scenario.provider2))
    = ["-p"; "22"] /\
  Store.elems
    (getConfig Scenario.provider2 Scenario.store2 (Some Scenario.overrideV)).1
    (SSHOpts (DefaultConfig Scenario.provider2))
    = ["-v"; "22"].
Proof. split; vm_compute; reflexivity. Qed.

(** C4: with the default's SSH options [-p], [22] and the override's
    [-v], the resolved SSH options are [-v], [22], a mix of both lists;
    with a default without SSH options the override's [-v] is dropped. *)
Theorem getConfig_mixes_SSHOpts :
  (let r := getConfig Scenario.provider2 Scenario.store2
              (Some Scenario.overrideV) in
   Store.elems r.1 (SSHOpts r.2) = ["-v"; "22"]) /\
  (let r := getConfig Scenario.providerTcp ∅ (Some Scenario.overrideV) in
   Store.elems r.1 (SSHOpts r.2) = []).
Proof. split; vm_compute; reflexivity. Qed.

(** ** The TLS material loader *)

Section Loader.

Context {Certificate CertPool DialFunc Client : Type}.
Variable env : Env Certificate CertPool DialFunc Client.

Local Abbreviation Event := (Event Certificate CertPool DialFunc Client).

Lemma finishHTTPClient_empty_CA (caPEMCert : option (list byte))
    (certs : list Certificate) :
  byte_len caPEMCert = 0%nat ->
  finishHTTPClient env caPEMCert certs =
  ([], inl (mkHTTPClient
              (with_TLS (defaultTransport env) (mkTLS certs true None)))).
Proof. intros H. unfold finishHTTPClient. now rewrite H. Qed.

Lemma finishHTTPClient_calls (caPEMCert : option (list byte))
    (certs : list Certificate) :
  Forall tls_call (finishHTTPClient env caPEMCert certs).1.
Proof.
  unfold finishHTTPClient.
  destruct (byte_len caPEMCert =? 0)%nat; [constructor|].
  destruct (x509_AppendCertsFromPEM env _); repeat constructor.
Qed.

Lemma buildHTTPClientFromBytes_calls
    (caPEMCert certPEMBlock keyPEMBlock : option (list byte)) :
  Forall tls_call
    (buildHTTPClientFromBytes env caPEMCert certPEMBlock keyPEMBlock).1.
Proof.
  unfold buildHTTPClientFromBytes.
  destruct certPEMBlock as [cert|], keyPEMBlock as [key|];
    try apply finishHTTPClient_calls.
  destruct (tls_X509KeyPair env cert key) as [tlsCert|err].
  - pose proof (finishHTTPClient_calls caPEMCert [tlsCert]) as F.
    destruct (finishHTTPClient env caPEMCert [tlsCert]) as [tr r].
    constructor; [exact I | exact F].
  - repeat constructor.
Qed.

(** C9: when the CA PEM argument is empty and the key pair, if both its
    blocks are given, parses, [buildHTTPClientFromBytes] returns a client
    whose TLS configuration has [InsecureSkipVerify] set and no root
    pool. *)
Theorem buildHTTPClientFromBytes_empty_CA_skips_verify
    (caPEMCert certPEMBlock keyPEMBlock : option (list byte)) :
  byte_len caPEMCert = 0%nat ->
  (forall cert key, certPEMBlock = Some cert -> keyPEMBlock = Some key ->
     exists tlsCert, tls_X509KeyPair env cert key = inl tlsCert) ->
  exists httpClient tlsConfig,
    (buildHTTPClientFromBytes env caPEMCert certPEMBlock keyPEMBlock).2
      = inl httpClient /\
    TLSClientConfig (Transport httpClient) = Some tlsConfig /\
    InsecureSkipVerify tlsConfig = true /\
    RootCAs tlsConfig = None.
Proof.
  intros Hca Hpair. unfold buildHTTPClientFromBytes.
  destruct certPEMBlock as [cert|], keyPEMBlock as [key|];
    try (rewrite finishHTTPClient_empty_CA by exact Hca;
         eexists _, _; repeat split).
  destruct (Hpair cert key eq_refl eq_refl) as [tlsCert ->].
  rewrite finishHTTPClient_empty_CA by exact Hca.
  eexists _, _; repeat split.
Qed.

End Loader.

Lemma buildHTTPClientFromBytes_empty_CA_skips_verify_witness :
  exists httpClient tlsConfig,
    (buildHTTPClientFromBytes (Scenario.env Scenario.sshHelper Scenario.pingOk)
       (Some []) (Some (bytes_of_string "CERT")) (Some (bytes_of_string "KEY"))).2
      = inl httpClient /\
    TLSClientConfig (Transport httpClient) = Some tlsConfig /\
    InsecureSkipVerify tlsConfig = true /\
    RootCAs tlsConfig = None.
Proof.
  apply (buildHTTPClientFromBytes_empty_CA_skips_verify
           (Scenario.env Scenario.sshHelper Scenario.pingOk)
           (Some []) (Some (bytes_of_string "CERT"))
           (Some (bytes_of_string "KEY"))).
  - reflexivity.
  - intros cert key _ _. exists (cert, key). reflexivity.
Defined.

(** ** The client cache *)

Section Cache.

Context {Certificate CertPool DialFunc Client : Type}.

Local Abbreviation Env := (Env Certificate CertPool DialFunc Client).
Local Abbreviation Event := (Event Certificate CertPool DialFunc Client).

(** The calls of the branches: the loader's, at most one helper
    resolution, made without SSH flags, and the construction of a client. *)
Lemma MakeClient_branches_calls (env : Env) (config : Config) (e : Event) :
  In e (MakeClient_branches env config).1 ->
  tls_call e \/ e = CallGetConnectionHelper (Host config) [] \/
  exists ops, e = CallNewClientWithOpts ops.
Proof.
  unfold MakeClient_branches.
  destruct (nonempty (Cert config) || nonempty (Key config)).
  - destruct (negb (nonempty (Cert config)) || negb (nonempty (Key config)));
      [intros []|].
    destruct (nonempty (CertPath config)); [intros []|].
    pose proof (buildHTTPClientFromBytes_calls env
                  (Some (bytes_of_string (Ca config)))
                  (Some (bytes_of_string (Cert config)))
                  (Some (bytes_of_string (Key config)))) as F.
    rewrite List.Forall_forall in F.
    destruct (buildHTTPClientFromBytes env _ _ _) as [tr [httpClient|err]];
      simpl in *; [|now left; apply F].
    rewrite in_app_iff. intros [H|[<-|[]]]; [now left; apply F | eauto].
  - destruct (nonempty (CertPath config)).
    { intros [<-|[]]. eauto. }
    destruct (strings_HasPrefix (Host config) "ssh://").
    + destruct (connhelper_GetConnectionHelperWithSSHOpts env _ _)
        as [[helper|]|err]; simpl; intuition (subst; eauto).
    + intros [<-|[]]. eauto.
Qed.

Lemma MakeClient_branches_no_ping (env : Env) (config : Config)
    (cli : Client) :
  ~ In (CallPing cli : Event) (MakeClient_branches env config).1.
Proof.
  intros H. apply MakeClient_branches_calls in H.
  destruct H as [H|[H|[ops H]]]; [exact H | discriminate H | discriminate H].
Qed.

(** A cache hit returns the cached pointer at once. *)
Lemma MakeClient_on_hit (env : Env) (c : ProviderConfig Client)
    (h : Store.t) (d : option ResourceData) (h1 : Store.t)
    (config : Config) (cached : option Client) :
  getConfig c h d = (h1, config) ->
  clientCache c !! Hash h1 config = Some cached ->
  MakeClient env c h d = (h1, c, [], Return cached None).
Proof.
  intros Hcfg Hhit. unfold MakeClient. rewrite Hcfg, Hhit. reflexivity.
Qed.

(** A cache miss runs the branches. *)
Lemma MakeClient_on_miss (env : Env) (c : ProviderConfig Client)
    (h : Store.t) (d : option ResourceData) (h1 : Store.t)
    (config : Config) :
  getConfig c h d = (h1, config) ->
  clientCache c !! Hash h1 config = None ->
  MakeClient env c h d =
  match MakeClient_branches env config with
  | (tr, inl out) => (h1, c, tr, out)
  | (tr, inr (_, Some err)) => (h1, c, tr, Return None (Some err))
  | (tr, inr (dockerClient, None)) =>
      let c' :=
        mkProviderConfig (DefaultConfig c)
          (LoadOrStore (clientCache c) (Hash h1 config) dockerClient) in
      let '(tr', out) := pingAndReturn env dockerClient in
      (h1, c', tr ++ tr', out)
  end.
Proof.
  intros Hcfg Hmiss. unfold MakeClient. rewrite Hcfg, Hmiss. reflexivity.
Qed.

(** C8: when the cache holds an entry for the fingerprint of the resolved
    configuration, [MakeClient] returns that entry with a nil error,
    makes no call to build or ping a client, and leaves the provider as
    it was. *)
Theorem MakeClient_cache_hit (env : Env) (c : ProviderConfig Client)
    (h : Store.t) (d : option ResourceData) (h1 : Store.t)
    (config : Config) (cached : option Client) :
  getConfig c h d = (h1, config) ->
  clientCache c !! Hash h1 config = Some cached ->
  MakeClient env c h d = (h1, c, [], Return cached None).
Proof. apply MakeClient_on_hit. Qed.

(** C6: on a cache miss with cert or key material set, [MakeClient]
    returns the pair error and no client when one of the two is empty, and
    the cert-path error and no client when both are set together with a
    cert path; in both cases, and so whenever a cert path comes with cert
    or key material, no call is made to build a client and nothing is
    cached. *)
Theorem MakeClient_cert_key_conflict (env : Env) (c : ProviderConfig Client)
    (h : Store.t) (d : option ResourceData) (h1 : Store.t) (config : Config) :
  getConfig c h d = (h1, config) ->
  clientCache c !! Hash h1 config = None ->
  Cert config <> "" \/ Key config <> "" ->
  (Cert config = "" \/ Key config = "" ->
   MakeClient env c h d = (h1, c, [], Return None (Some errPair))) /\
  (Cert config <> "" -> Key config <> "" -> CertPath config <> "" ->
   MakeClient env c h d = (h1, c, [], Return None (Some errCertPath))) /\
  (CertPath config <> "" ->
   exists err, MakeClient env c h d = (h1, c, [], Return None (Some err))).
Proof.
  intros Hcfg Hmiss Hset.
  rewrite (MakeClient_on_miss env c h d h1 config Hcfg Hmiss).
  clear Hcfg Hmiss. unfold MakeClient_branches.
  destruct config as [host opts ca cert key certPath]; simpl in *.
  destruct cert, key, certPath; simpl; repeat split; intros;
    try reflexivity; try solve [intuition congruence]; eauto.
Qed.

(** C7: when the ping of the freshly built client fails, [MakeClient]
    returns the ping error and no client, the client stays in the cache
    under the fingerprint, and any later call whose resolved configuration
    has that fingerprint returns this client with a nil error and without
    any call to build or ping. *)
Theorem MakeClient_failed_ping_keeps_entry (env : Env)
    (c : ProviderConfig Client) (h : Store.t) (d : option ResourceData)
    (h1 : Store.t) (config : Config) (cli : Client) (err : error) :
  getConfig c h d = (h1, config) ->
  In (CallPing cli : Event) (MakeClient env c h d).1.2 ->
  client_Ping env cli = Some err ->
  (MakeClient env c h d).2 = Return None (Some (errPing err)) /\
  clientCache (MakeClient env c h d).1.1.2 !! Hash h1 config
    = Some (Some cli) /\
  forall (env' : Env) (h' : Store.t) (d' : option ResourceData)
         (h2 : Store.t) (config' : Config),
    getConfig (MakeClient env c h d).1.1.2 h' d' = (h2, config') ->
    Hash h2 config' = Hash h1 config ->
    MakeClient env' (MakeClient env c h d).1.1.2 h' d'
      = (h2, (MakeClient env c h d).1.1.2, [], Return (Some cli) None).
Proof.
  intros Hcfg Hin Hping.
  destruct (clientCache c !! Hash h1 config) as [cached|] eqn:Hload.
  { rewrite (MakeClient_on_hit env c h d h1 config cached Hcfg Hload) in Hin.
    destruct Hin. }
  rewrite (MakeClient_on_miss env c h d h1 config Hcfg Hload) in *.
  pose proof (MakeClient_branches_no_ping env config cli) as Nobranch.
  destruct (MakeClient_branches env config) as [tr [out|[dockerClient [e|]]]];
    simpl in *; try contradiction.
  unfold pingAndReturn in *.
  destruct dockerClient as [cli'|]; simpl in *.
  - assert (cli' = cli) as ->.
    { destruct (client_Ping env cli'); simpl in Hin;
        rewrite in_app_iff in Hin; destruct Hin as [H|[H|[]]];
        try contradiction; now inversion H. }
    rewrite Hping in *. simpl.
    assert (LoadOrStore (clientCache c) (Hash h1 config) (Some cli)
              !! Hash h1 config = Some (Some cli)) as Hstored.
    { unfold LoadOrStore. rewrite Hload. apply lookup_insert_eq. }
    repeat split; [exact Hstored|].
    intros env' h' d' h2 config' Hcfg' Hsame.
    apply (MakeClient_on_hit env' _ h' d' h2 config' (Some cli) Hcfg').
    simpl. rewrite Hsame. exact Hstored.
  - rewrite app_nil_r in Hin. contradiction.
Qed.

(** X28: every helper resolution of [MakeClient] is made without SSH
    flags, whatever SSH options the resolved configuration has. *)
Lemma MakeClient_resolves_without_flags (env : Env)
    (c : ProviderConfig Client) (h : Store.t) (d : option ResourceData)
    (daemonURL : string) (sshFlags : list string) :
  In (CallGetConnectionHelper daemonURL sshFlags : Event)
     (MakeClient env c h d).1.2 ->
  sshFlags = [].
Proof.
  unfold MakeClient.
  destruct (getConfig c h d) as [h1 config].
  destruct (clientCache c !! Hash h1 config); [intros []|].
  assert (In (CallGetConnectionHelper daemonURL sshFlags : Event)
             (MakeClient_branches env config).1 -> sshFlags = []) as Hbr.
  { intros H. apply MakeClient_branches_calls in H.
    destruct H as [H|[H|[ops H]]];
      [destruct H | now inversion H | discriminate H]. }
  destruct (MakeClient_branches env config) as [tr [out|[dockerClient [e|]]]];
    simpl in *; try exact Hbr.
  unfold pingAndReturn.
  destruct dockerClient as [cli|]; [destruct (client_Ping env cli)|];
    simpl; rewrite in_app_iff; simpl; intuition discriminate.
Qed.

End Cache.

Lemma MakeClient_cache_hit_witness :
  MakeClient (Scenario.env Scenario.sshHelper Scenario.pingDown)
    Scenario.providerTcpCached ∅ None
  = (∅, Scenario.providerTcpCached, [],
     Return (Some Scenario.clientTcp) None).
Proof.
  apply (MakeClient_cache_hit
           (Scenario.env Scenario.sshHelper Scenario.pingDown)
           Scenario.providerTcpCached ∅ None ∅ Scenario.defaultTcp
           (Some Scenario.clientTcp)).
  - vm_compute. reflexivity.
  - vm_compute. reflexivity.
Defined.

Lemma MakeClient_cert_key_conflict_witness :
  let env := Scenario.env Scenario.sshHelper Scenario.pingOk in
  let c := Scenario.providerTcp in
  let d := Some Scenario.overrideCertOnly in
  let h1 := (getConfig c ∅ d).1 in
  let config := (getConfig c ∅ d).2 in
  (Cert config = "" \/ Key config = "" ->
   MakeClient env c ∅ d = (h1, c, [], Return None (Some errPair))) /\
  (Cert config <> "" -> Key config <> "" -> CertPath config <> "" ->
   MakeClient env c ∅ d = (h1, c, [], Return None (Some errCertPath))) /\
  (CertPath config <> "" ->
   exists err, MakeClient env c ∅ d = (h1, c, [], Return None (Some err))).
Proof.
  intros env c d h1 config.
  apply (MakeClient_cert_key_conflict env c ∅ d h1 config).
  - vm_compute. reflexivity.
  - vm_compute. reflexivity.
  - left. vm_compute. discriminate.
Defined.

Lemma MakeClient_failed_ping_keeps_entry_witness :
  let env := Scenario.env Scenario.sshHelper Scenario.pingDown in
  let c := Scenario.providerTcp in
  let c' := (MakeClient env c ∅ None).1.1.2 in
  (MakeClient env c ∅ None).2
    = Return None (Some (errPing "connection refused")) /\
  clientCache c' !! Hash ∅ Scenario.defaultTcp
    = Some (Some Scenario.clientTcp) /\
  forall (env' : Env Scenario.Certificate Scenario.CertPool
                     Scenario.DialFunc Scenario.Client)
         (h' : Store.t) (d' : option ResourceData)
         (h2 : Store.t) (config' : Config),
    getConfig c' h' d' = (h2, config') ->
    Hash h2 config' = Hash ∅ Scenario.defaultTcp ->
    MakeClient env' c' h' d'
      = (h2, c', [], Return (Some Scenario.clientTcp) None).
Proof.
  intros env c c'.
  apply (MakeClient_failed_ping_keeps_entry env c ∅ None ∅
           Scenario.defaultTcp Scenario.clientTcp "connection refused").
  - vm_compute. reflexivity.
  - vm_compute. right. left. reflexivity.
  - reflexivity.
Defined.

(** ** The SSH branch of [MakeClient] against that of [NewClient] *)

(** C5: for the host [ssh://user@h] with the SSH options [-p], [22],
    [MakeClient] resolves the helper from the host alone, and the dial
    command of the client it builds has no [-p 22]; [NewClient] on the same
    configuration passes the two options to the resolution. *)
Theorem MakeClient_ssh_drops_SSHOpts :
  let env := Scenario.env Scenario.sshHelper Scenario.pingOk in
  let r := MakeClient env Scenario.provider2 Scenario.store2 None in
  let dial := ["ssh://user@h"; "docker"; "system"; "dial-stdio"] in
  let cli := [WithHost "http://docker.example.com"; WithDialContext dial;
              WithAPIVersionNegotiation] in
  Store.elems Scenario.store2 (SSHOpts Scenario.default2) = ["-p"; "22"] /\
  r.1.2 = [CallGetConnectionHelper "ssh://user@h" [];
           CallNewClientWithOpts cli; CallPing cli] /\
  r.2 = Return (Some cli) None /\
  (NewClient env Scenario.store2 Scenario.default2).1 =
    [CallGetConnectionHelper "ssh://user@h" ["-p"; "22"];
     CallNewClientWithOpts
       [WithHost "http://docker.example.com";
        WithDialContext ("-p" :: "22" :: dial);
        WithAPIVersionNegotiation]].
Proof. repeat split; vm_compute; reflexivity. Qed.

(** * Further properties *)

(** ** The fingerprint *)

Lemma lxor_below (a b : Z) :
  0 <= a < 2 ^ 64 -> 0 <= b < 2 ^ 64 -> 0 <= Z.lxor a b < 2 ^ 64.
Proof.
  intros [Ha0 Ha] [Hb0 Hb].
  assert (0 <= Z.lxor a b) as H0 by (apply Z.lxor_nonneg; tauto).
  split; [exact H0|].
  destruct (Z.eq_dec (Z.lxor a b) 0) as [->|Hne]; [reflexivity|].
  apply Z.log2_lt_pow2; [lia|].
  pose proof (Z.log2_lxor a b Ha0 Hb0) as Hl.
  assert (Z.log2 a < 64) as La.
  { destruct (Z.eq_dec a 0) as [->|]; [reflexivity|].
    apply Z.log2_lt_pow2; lia. }
  assert (Z.log2 b < 64) as Lb.
  { destruct (Z.eq_dec b 0) as [->|]; [reflexivity|].
    apply Z.log2_lt_pow2; lia. }
  lia.
Qed.

Lemma fnv_step_below (hash : Z) (c : byte) : 0 <= fnv.step hash c < 2 ^ 64.
Proof.
  unfold fnv.step, fnv.wrap64. apply lxor_below.
  - apply Z.mod_pos_bound. reflexivity.
  - pose proof (Byte.to_N_bounded c). lia.
Qed.

Lemma fnv_Write_below (data : list byte) (hash : Z) :
  0 <= hash < 2 ^ 64 -> 0 <= fnv.Write hash data < 2 ^ 64.
Proof.
  revert hash. induction data as [|c data IH]; intros hash Hh; [exact Hh|].
  apply IH, fnv_step_below.
Qed.

(** X1: the fingerprint of every configuration is a 64-bit unsigned
    value. *)
Theorem Hash_is_uint64 (h : Store.t) (c : Config) : 0 <= Hash h c < 2 ^ 64.
Proof.
  unfold Hash, fnv.Sum64_of. apply fnv_Write_below. unfold fnv.offset64. lia.
Qed.

Lemma app_String (a : ascii) (s r : string) :
  String a s +:+ r = String a (s +:+ r).
Proof. reflexivity. Qed.

Lemma app_assoc_string (a b c : string) : (a +:+ b) +:+ c = a +:+ b +:+ c.
Proof.
  induction a as [|x a IH]; [reflexivity|].
  rewrite !app_String. now rewrite IH.
Qed.

(** The hashed string splits at the first delimiter when the part in front
    of it holds none. *)
Lemma split_at_pipe (a b r r' : string) :
  has_pipe a = false -> has_pipe b = false ->
  a +:+ "|" +:+ r = b +:+ "|" +:+ r' -> a = b /\ r = r'.
Proof.
  revert b. induction a as [|x a IH]; intros [|y b] Ha Hb E.
  - now inversion E.
  - inversion E as [[Ey Er]]. subst y. simpl in Hb. discriminate Hb.
  - inversion E as [[Ex Er]]. subst x. simpl in Ha. discriminate Ha.
  - rewrite !app_String in E. inversion E as [[Exy Er]]. subst y.
    simpl in Ha, Hb. destruct (Ascii.eqb x "|"); [discriminate|].
    destruct (IH b Ha Hb Er) as [-> ->]. split; reflexivity.
Qed.

(** X2: when no string field of two configurations holds the delimiter
    [|], equal hashed strings mean equal Host, Ca, Cert, Key and CertPath:
    such configurations are told apart by the bytes that are hashed. *)
Theorem Hash_input_injective (h1 h2 : Store.t) (c1 c2 : Config) :
  pipe_free c1 -> pipe_free c2 ->
  Hash_input h1 c1 = Hash_input h2 c2 ->
  Host c1 = Host c2 /\ Ca c1 = Ca c2 /\ Cert c1 = Cert c2 /\
  Key c1 = Key c2 /\ CertPath c1 = CertPath c2.
Proof.
  intros (A1 & A2 & A3 & A4 & A5) (B1 & B2 & B3 & B4 & B5) E.
  rewrite !Hash_input_eq in E. simpl in E.
  apply split_at_pipe in E as [E1 E]; [|assumption..].
  apply split_at_pipe in E as [E2 E]; [|assumption..].
  apply split_at_pipe in E as [E3 E]; [|assumption..].
  apply split_at_pipe in E as [E4 E]; [|assumption..].
  apply split_at_pipe in E as [E5 _]; [|assumption..].
  repeat split; assumption.
Qed.

Lemma Hash_input_injective_witness :
  Host Scenario.defaultSsh = Host Scenario.default2 /\
  Ca Scenario.defaultSsh = Ca Scenario.default2 /\
  Cert Scenario.defaultSsh = Cert Scenario.default2 /\
  Key Scenario.defaultSsh = Key Scenario.default2 /\
  CertPath Scenario.defaultSsh = CertPath Scenario.default2.
Proof.
  apply (Hash_input_injective ∅ Scenario.store2 Scenario.defaultSsh
           Scenario.default2).
  - repeat split.
  - repeat split.
  - reflexivity.
Defined.

(** X3: a delimiter inside a field moves a field boundary: the
    configuration with host [x|y] and CA [z] and the configuration with
    host [x] and CA [y|z] have the same fingerprint when their other
    string fields agree, so they share one cache entry. *)
Theorem Hash_delimiter_collision (h1 h2 : Store.t) (x y z : string)
    (opts1 opts2 : Slice) (cert key certPath : string) :
  Hash h1 (mkConfig (x +:+ "|" +:+ y) opts1 z cert key certPath) =
  Hash h2 (mkConfig x opts2 (y +:+ "|" +:+ z) cert key certPath).
Proof.
  unfold Hash. rewrite !Hash_input_eq. simpl.
  now rewrite !app_assoc_string.
Qed.

(** ** Registry addresses *)

Lemma https_prefixed (address : string) :
  strings_HasPrefix ("https://" +:+ address) "http://" = false /\
  strings_HasPrefix ("https://" +:+ address) "https://" = true.
Proof.
  split; [reflexivity|].
  unfold strings_HasPrefix. cbn. destruct address; reflexivity.
Qed.

Lemma normalize_by_scheme (address : string) :
  let has_scheme a :=
    strings_HasPrefix a "http://" || strings_HasPrefix a "https://" in
  normalizeRegistryAddress address =
    (if has_scheme address then address else "https://" +:+ address) /\
  has_scheme (normalizeRegistryAddress address) = true.
Proof.
  intros has_scheme. subst has_scheme. unfold normalizeRegistryAddress.
  destruct (strings_HasPrefix address "http://") eqn:Hhttp; simpl.
  { rewrite Hhttp. auto. }
  destruct (strings_HasPrefix address "https://") eqn:Hhttps; simpl.
  { rewrite Hhttp, Hhttps. auto. }
  split; [reflexivity|].
  exact (proj2 (https_prefixed address)).
Qed.

(** X4: an address that starts with [http://] or [https://] is returned as
    it is, any other address gets [https://] in front; so the result
    always starts with one of the two schemes. *)
Theorem normalizeRegistryAddress_scheme (address : string) :
  let has_scheme a :=
    strings_HasPrefix a "http://" || strings_HasPrefix a "https://" in
  normalizeRegistryAddress address =
    (if has_scheme address then address else "https://" +:+ address) /\
  has_scheme (normalizeRegistryAddress address) = true.
Proof. apply normalize_by_scheme. Qed.

(** X5: normalizing a registry address twice is the same as normalizing
    it once. *)
Theorem normalizeRegistryAddress_idempotent (address : string) :
  normalizeRegistryAddress (normalizeRegistryAddress address) =
  normalizeRegistryAddress address.
Proof.
  destruct (normalize_by_scheme address) as [_ H].
  destruct (normalize_by_scheme (normalizeRegistryAddress address))
    as [E _].
  simpl in *. rewrite H in E. exact E.
Qed.

(** ** The store *)

Local Open Scope nat_scope.

Lemma rewrite_prefix (arr : list string) (n : nat) :
  take n (take n arr) ++ drop (length (take n (take n arr))) arr = arr.
Proof.
  rewrite take_take, Nat.min_id, length_take.
  destruct (Nat.le_ge_cases n (length arr)) as [H|H].
  - rewrite Nat.min_l by exact H. apply take_drop.
  - rewrite Nat.min_r by exact H.
    rewrite take_ge by exact H. rewrite drop_all. apply app_nil_r.
Qed.

(** Copying a slice onto itself changes nothing. *)
Lemma Store_copy_self (h : Store.t) (s : Slice) :
  Store.copy h s s = (h, len s).
Proof.
  unfold Store.copy, Store.write, Store.elems. rewrite Nat.min_id.
  destruct (ptr s) as [l|]; [|reflexivity].
  f_equal. apply map_eq. intros k. rewrite lookup_alter.
  destruct (decide (l = k)) as [<-|]; [|reflexivity].
  destruct (h !! l) as [arr|]; [|reflexivity].
  simpl. f_equal. apply rewrite_prefix.
Qed.

Lemma make_keeps (h : Store.t) (n : nat) (k : loc) (arr : list string) :
  h !! k = Some arr -> (Store.make h n).1 !! k = Some arr.
Proof.
  intros Hk. unfold Store.make. simpl.
  rewrite lookup_insert_ne; [exact Hk|].
  intros E. apply elem_of_dom_2 in Hk. rewrite <- E in Hk.
  exact (is_fresh (dom h) Hk).
Qed.

Lemma fill_from_other (vs : list string) (h : Store.t) (l : loc) (n i : nat)
    (k : loc) :
  k <> l -> fill_from h (mkSlice (Some l) n) i vs !! k = h !! k.
Proof.
  intros Hne. revert h i.
  induction vs as [|v vs IH]; intros h i; [reflexivity|].
  simpl. rewrite IH. unfold Store.set. simpl.
  now rewrite lookup_alter_ne by congruence.
Qed.

Lemma fill_from_array (vs : list string) (h : Store.t) (l : loc) (n i : nat)
    (arr : list string) :
  h !! l = Some arr ->
  fill_from h (mkSlice (Some l) n) i vs !! l = Some (filled i vs arr).
Proof.
  revert h i arr.
  induction vs as [|v vs IH]; intros h i arr Hl; [exact Hl|].
  simpl. apply IH. unfold Store.set. simpl.
  rewrite lookup_alter_eq, Hl. reflexivity.
Qed.

Lemma filled_blank (vs pre : list string) :
  filled (length pre) vs (pre ++ replicate (length vs) ""%string) = pre ++ vs.
Proof.
  revert pre. induction vs as [|v vs IH]; intros pre.
  - simpl. reflexivity.
  - simpl.
    assert (<[length pre := v]> (pre ++ ""%string :: replicate (length vs) ""%string)
            = (pre ++ [v]) ++ replicate (length vs) ""%string) as ->.
    { replace (length pre) with (length pre + 0) by lia.
      rewrite insert_app_r. simpl. now rewrite <- app_assoc. }
    replace (S (length pre)) with (length (pre ++ [v]))
      by (rewrite length_app; simpl; lia).
    rewrite IH. now rewrite <- app_assoc.
Qed.

(** ** NewConfig *)

Lemma NewConfig_elems (h : Store.t) (o : OverrideBlock)
    (rest : list OverrideBlock) :
  let r := NewConfig h (mkResourceData (o :: rest)) in
  Store.elems r.1 (SSHOpts r.2) = o_ssh_opts o /\
  len (SSHOpts r.2) = length (o_ssh_opts o).
Proof.
  unfold NewConfig. simpl.
  set (h0 := <[fresh (dom h) := []]> h).
  set (l := fresh (dom h0)).
  split; [|reflexivity].
  unfold Store.elems. simpl.
  rewrite (fill_from_array _ _ l _ 0 (replicate (length (o_ssh_opts o)) ""%string))
    by apply lookup_insert_eq.
  pose proof (filled_blank (o_ssh_opts o) []) as F. simpl in F.
  simpl. rewrite F. apply take_ge. reflexivity.
Qed.

(** X6: the configuration [NewConfig] reads from an override block holds
    the SSH options of the block, all of them and in their order. *)
Theorem NewConfig_SSHOpts (h : Store.t) (o : OverrideBlock)
    (rest : list OverrideBlock) :
  let r := NewConfig h (mkResourceData (o :: rest)) in
  Store.elems r.1 (SSHOpts r.2) = o_ssh_opts o /\
  len (SSHOpts r.2) = length (o_ssh_opts o).
Proof. apply NewConfig_elems. Qed.

Lemma NewConfig_frame (h : Store.t) (d : ResourceData) (k : loc)
    (arr : list string) :
  h !! k = Some arr -> (NewConfig h d).1 !! k = Some arr.
Proof.
  intros Hk. unfold NewConfig.
  pose proof (make_keeps h 0 k arr Hk) as H0.
  destruct (Store.make h 0) as [h0 empty]. simpl in H0.
  destruct (override d) as [|o rest]; [exact H0|].
  pose proof (make_keeps h0 (length (o_ssh_opts o)) k arr H0) as H1.
  unfold Store.make in *. simpl in *.
  rewrite fill_from_other; [exact H1|].
  intros E. apply elem_of_dom_2 in H0. rewrite E in H0.
  exact (is_fresh (dom h0) H0).
Qed.

(** X7: [NewConfig] allocates its slices afresh: every array that is in
    the store before the call is there unchanged after it. *)
Theorem NewConfig_keeps_arrays (h : Store.t) (d : ResourceData) (k : loc)
    (arr : list string) :
  h !! k = Some arr -> (NewConfig h d).1 !! k = Some arr.
Proof. apply NewConfig_frame. Qed.

Lemma NewConfig_keeps_arrays_witness :
  (NewConfig Scenario.store2 Scenario.overrideV).1 !! 0 = Some ["-p"; "22"]%string.
Proof.
  apply (NewConfig_keeps_arrays Scenario.store2 Scenario.overrideV 0
           ["-p"; "22"]%string).
  reflexivity.
Defined.

(** ** The resolver *)

(** X8: without resource data the resolved configuration is the provider
    default and the store is as before. *)
Theorem getConfig_nil {Client : Type} (c : ProviderConfig Client)
    (h : Store.t) :
  getConfig c h None = (h, DefaultConfig c).
Proof. unfold getConfig. now rewrite Store_copy_self. Qed.

Lemma applyOverride_store (h : Store.t) (config rc : Config) :
  (applyOverride h config rc).1 =
  if negb (len (SSHOpts rc) =? 0)
  then (Store.copy h (SSHOpts config) (SSHOpts rc)).1
  else h.
Proof.
  unfold applyOverride.
  destruct (nonempty (Host rc)); reflexivity.
Qed.

(** X9: resource data without an override block resolves to the provider
    default, and every array of the store is unchanged. *)
Theorem getConfig_no_override {Client : Type} (c : ProviderConfig Client)
    (h : Store.t) :
  (getConfig c h (Some (mkResourceData []))).2 = DefaultConfig c /\
  forall (k : loc) (arr : list string),
    h !! k = Some arr ->
    (getConfig c h (Some (mkResourceData []))).1 !! k = Some arr.
Proof.
  unfold getConfig. rewrite Store_copy_self.
  unfold NewConfig, applyOverride. simpl.
  destruct (DefaultConfig c) as [host opts ca cert key certPath]. simpl.
  split; [reflexivity|].
  intros k arr Hk. apply (make_keeps h 0 k arr Hk).
Qed.

(** X10: with an override block, the resolved SSH options are the
    default's in which the first [min(len default, len override)] entries
    are replaced by the override's; the default's own list holds the same
    elements after the call, its length unchanged. *)
Theorem getConfig_SSHOpts_elems {Client : Type} (c : ProviderConfig Client)
    (h : Store.t) (o : OverrideBlock) (rest : list OverrideBlock) :
  backed h (SSHOpts (DefaultConfig c)) ->
  let def := SSHOpts (DefaultConfig c) in
  let m := Nat.min (len def) (length (o_ssh_opts o)) in
  let r := getConfig c h (Some (mkResourceData (o :: rest))) in
  Store.elems r.1 (SSHOpts r.2) =
    take m (o_ssh_opts o) ++ drop m (Store.elems h def) /\
  Store.elems r.1 def = Store.elems r.1 (SSHOpts r.2).
Proof.
  intros Hb. cbv zeta.
  rewrite getConfig_SSHOpts_alias. split; [|reflexivity].
  unfold getConfig. rewrite Store_copy_self.
  pose proof (NewConfig_elems h o rest) as [Helems Hlen].
  pose proof (NewConfig_frame h (mkResourceData (o :: rest))) as Hkeep.
  destruct (NewConfig h (mkResourceData (o :: rest))) as [h2 rc].
  simpl in Helems, Hlen, Hkeep.
  rewrite applyOverride_store, Hlen.
  unfold backed in Hb. unfold Store.copy, Store.write.
  rewrite Helems, Hlen. unfold Store.elems.
  destruct (DefaultConfig c) as [host [p n] ca cert key certPath].
  simpl in *. set (m := Nat.min n (length (o_ssh_opts o))).
  assert (m <= length (o_ssh_opts o)) as Hm1 by (subst m; lia).
  assert (m <= n) as Hm2 by (subst m; lia).
  destruct p as [l|].
  - destruct Hb as (arr & Harr & Hle).
    pose proof (Hkeep l arr Harr) as Harr2. rewrite Harr. simpl.
    assert (take n (take m (o_ssh_opts o) ++ drop m arr) =
            take m (o_ssh_opts o) ++ drop m (take n arr)) as Hnew.
    { rewrite take_app_ge by (rewrite length_take; lia).
      rewrite length_take, Nat.min_l by exact Hm1.
      rewrite take_drop_commute.
      now replace (m + (n - m)) with n by lia. }
    destruct (length (o_ssh_opts o) =? 0) eqn:Hz; simpl.
    + apply Nat.eqb_eq in Hz. rewrite Harr2. simpl.
      assert (m = 0) as -> by lia. reflexivity.
    + rewrite lookup_alter_eq, Harr2. simpl.
      rewrite length_take, Nat.min_l by exact Hm1. exact Hnew.
  - assert (m = 0) as -> by lia. reflexivity.
Qed.

Lemma getConfig_SSHOpts_elems_witness :
  let r := getConfig Scenario.provider2 Scenario.store2
             (Some (mkResourceData [mkOverride "" ["-v"] "" "" "" ""]))%string in
  Store.elems r.1 (SSHOpts r.2) =
    take 1 ["-v"]%string ++ drop 1 ["-p"; "22"]%string /\
  Store.elems r.1 (SSHOpts Scenario.default2) = Store.elems r.1 (SSHOpts r.2).
Proof.
  apply (getConfig_SSHOpts_elems Scenario.provider2 Scenario.store2
           (mkOverride "" ["-v"] "" "" "" "")%string []).
  exists ["-p"; "22"]%string. split; [reflexivity | simpl; lia].
Defined.

Local Close Scope nat_scope.

(** ** The TLS material loader, continued *)

Section LoaderMore.

Context {Certificate CertPool DialFunc Client : Type}.
Variable env : Env Certificate CertPool DialFunc Client.

Lemma finishHTTPClient_result (caPEMCert : option (list byte))
    (certs : list Certificate) :
  (finishHTTPClient env caPEMCert certs).2 =
  if (byte_len caPEMCert =? 0)%nat
  then inl (mkHTTPClient
              (with_TLS (defaultTransport env) (mkTLS certs true None)))
  else match x509_AppendCertsFromPEM env (default [] caPEMCert) with
       | Some caPool =>
           inl (mkHTTPClient
                  (with_TLS (defaultTransport env)
                     (mkTLS certs false (Some caPool))))
       | None => inr "could not add RootCA pem"
       end.
Proof.
  unfold finishHTTPClient.
  destruct (byte_len caPEMCert =? 0)%nat; [reflexivity|].
  destruct (x509_AppendCertsFromPEM env _); reflexivity.
Qed.

Lemma buildHTTPClientFromBytes_result
    (caPEMCert certPEMBlock keyPEMBlock : option (list byte)) :
  (buildHTTPClientFromBytes env caPEMCert certPEMBlock keyPEMBlock).2 =
  match certPEMBlock, keyPEMBlock with
  | Some cert, Some key =>
      match tls_X509KeyPair env cert key with
      | inr err => inr err
      | inl tlsCert => (finishHTTPClient env caPEMCert [tlsCert]).2
      end
  | _, _ => (finishHTTPClient env caPEMCert []).2
  end.
Proof.
  unfold buildHTTPClientFromBytes.
  destruct certPEMBlock as [cert|], keyPEMBlock as [key|]; try reflexivity.
  destruct (tls_X509KeyPair env cert key) as [tlsCert|err]; [|reflexivity].
  destruct (finishHTTPClient env caPEMCert [tlsCert]); reflexivity.
Qed.

(** X11: the loader fails exactly when both PEM blocks are given and do
    not parse as a key pair, or the CA PEM is not empty and no certificate
    of it can be added to the pool. *)
Theorem buildHTTPClientFromBytes_fails_iff
    (caPEMCert certPEMBlock keyPEMBlock : option (list byte)) :
  (exists err,
     (buildHTTPClientFromBytes env caPEMCert certPEMBlock keyPEMBlock).2
       = inr err) <->
  (exists cert key err,
     certPEMBlock = Some cert /\ keyPEMBlock = Some key /\
     tls_X509KeyPair env cert key = inr err) \/
  (byte_len caPEMCert <> 0%nat /\
   x509_AppendCertsFromPEM env (default [] caPEMCert) = None).
Proof.
  rewrite buildHTTPClientFromBytes_result.
  assert (forall certs,
            (exists err, (finishHTTPClient env caPEMCert certs).2 = inr err) <->
            (byte_len caPEMCert <> 0%nat /\
             x509_AppendCertsFromPEM env (default [] caPEMCert) = None)) as F.
  { intros certs. rewrite finishHTTPClient_result.
    destruct (byte_len caPEMCert =? 0)%nat eqn:Hz.
    - apply Nat.eqb_eq in Hz. split; [intros [err H]; discriminate H|].
      intros [H _]. contradiction.
    - apply Nat.eqb_neq in Hz.
      destruct (x509_AppendCertsFromPEM env _).
      + split; [intros [err H]; discriminate H | intros [_ H]; discriminate H].
      + split; eauto. }
  destruct certPEMBlock as [cert|], keyPEMBlock as [key|];
    try (rewrite F; split;
         [tauto | intros [(c & k & e & H1 & H2 & _)|H];
                  [discriminate | exact H]]).
  destruct (tls_X509KeyPair env cert key) as [tlsCert|err] eqn:Hpair.
  - rewrite F. split; [tauto|].
    intros [(c & k & e & H1 & H2 & H3)|H]; [|exact H].
    inversion H1; inversion H2; subst. congruence.
  - split; [|eauto]. intros _. left. eauto 10.
Qed.

(** X12: when the loader succeeds, the client's TLS configuration skips
    server verification exactly when the CA PEM is empty, holds the pool
    filled from the CA PEM otherwise, and holds the parsed key pair as its
    only certificate when both PEM blocks are given. *)
Theorem buildHTTPClientFromBytes_TLS
    (caPEMCert certPEMBlock keyPEMBlock : option (list byte))
    (httpClient : http_Client Certificate CertPool) :
  (buildHTTPClientFromBytes env caPEMCert certPEMBlock keyPEMBlock).2
    = inl httpClient ->
  exists tlsConfig,
    TLSClientConfig (Transport httpClient) = Some tlsConfig /\
    InsecureSkipVerify tlsConfig = (byte_len caPEMCert =? 0)%nat /\
    RootCAs tlsConfig =
      (if (byte_len caPEMCert =? 0)%nat then None
       else x509_AppendCertsFromPEM env (default [] caPEMCert)) /\
    Certificates tlsConfig = parsed_pair env certPEMBlock keyPEMBlock.
Proof.
  rewrite buildHTTPClientFromBytes_result. unfold parsed_pair.
  assert (forall certs,
            (finishHTTPClient env caPEMCert certs).2 = inl httpClient ->
            exists tlsConfig,
              TLSClientConfig (Transport httpClient) = Some tlsConfig /\
              InsecureSkipVerify tlsConfig = (byte_len caPEMCert =? 0)%nat /\
              RootCAs tlsConfig =
                (if (byte_len caPEMCert =? 0)%nat then None
                 else x509_AppendCertsFromPEM env (default [] caPEMCert)) /\
              Certificates tlsConfig = certs) as F.
  { intros certs. rewrite finishHTTPClient_result.
    destruct (byte_len caPEMCert =? 0)%nat.
    - intros [= <-]. eexists. repeat split.
    - destruct (x509_AppendCertsFromPEM env _); [|discriminate].
      intros [= <-]. eexists. repeat split. }
  destruct certPEMBlock as [cert|], keyPEMBlock as [key|]; try apply F.
  destruct (tls_X509KeyPair env cert key); [apply F | discriminate].
Qed.

(** X13: every client the loader returns uses the transport of
    [defaultTransport]: keep-alives disabled, no idle connection kept per
    host whatever [GOMAXPROCS] is, at most 100 idle connections, 30 s dial
    timeout and keep-alive, 90 s idle timeout, 10 s TLS handshake timeout,
    1 s expect-continue timeout, proxy from the environment. *)
Theorem buildHTTPClientFromBytes_transport
    (caPEMCert certPEMBlock keyPEMBlock : option (list byte))
    (httpClient : http_Client Certificate CertPool) :
  (buildHTTPClientFromBytes env caPEMCert certPEMBlock keyPEMBlock).2
    = inl httpClient ->
  let tr := Transport httpClient in
  DisableKeepAlives tr = true /\ MaxIdleConnsPerHost tr = -1 /\
  MaxIdleConns tr = 100 /\
  DialContext tr = mkDialer (30 * Second) (30 * Second) /\
  IdleConnTimeout tr = 90 * Second /\
  TLSHandshakeTimeout tr = 10 * Second /\
  ExpectContinueTimeout tr = 1 * Second /\
  Proxy tr = ProxyFromEnvironment.
Proof.
  rewrite buildHTTPClientFromBytes_result.
  assert (forall certs,
            (finishHTTPClient env caPEMCert certs).2 = inl httpClient ->
            exists cfg, Transport httpClient
                        = with_TLS (defaultTransport env) cfg) as F.
  { intros certs. rewrite finishHTTPClient_result.
    destruct (byte_len caPEMCert =? 0)%nat.
    - intros [= <-]. eexists. reflexivity.
    - destruct (x509_AppendCertsFromPEM env _); [|discriminate].
      intros [= <-]. eexists. reflexivity. }
  intros H.
  assert (exists cfg, Transport httpClient
                      = with_TLS (defaultTransport env) cfg) as [cfg ->].
  { destruct certPEMBlock as [cert|], keyPEMBlock as [key|];
      try (eapply F; exact H).
    destruct (tls_X509KeyPair env cert key); [eapply F; exact H | discriminate]. }
  repeat split.
Qed.

End LoaderMore.

Lemma buildHTTPClientFromBytes_TLS_witness :
  exists httpClient tlsConfig,
    (buildHTTPClientFromBytes (Scenario.env Scenario.sshHelper Scenario.pingOk)
       (Some (bytes_of_string "CA")) (Some (bytes_of_string "CERT"))
       (Some (bytes_of_string "KEY"))).2 = inl httpClient /\
    TLSClientConfig (Transport httpClient) = Some tlsConfig /\
    InsecureSkipVerify tlsConfig = false /\
    RootCAs tlsConfig = Some (bytes_of_string "CA") /\
    Certificates tlsConfig = [(bytes_of_string "CERT", bytes_of_string "KEY")].
Proof.
  eexists.
  destruct (buildHTTPClientFromBytes_TLS
              (Scenario.env Scenario.sshHelper Scenario.pingOk)
              (Some (bytes_of_string "CA")) (Some (bytes_of_string "CERT"))
              (Some (bytes_of_string "KEY")) _ eq_refl)
    as (tlsConfig & H1 & H2 & H3 & H4).
  exists tlsConfig. split; [reflexivity|]. repeat split; assumption.
Defined.

Lemma buildHTTPClientFromBytes_transport_witness :
  exists httpClient,
    (buildHTTPClientFromBytes (Scenario.env Scenario.sshHelper Scenario.pingOk)
       (Some []) None None).2 = inl httpClient /\
    DisableKeepAlives (Transport httpClient) = true /\
    MaxIdleConnsPerHost (Transport httpClient) = -1.
Proof.
  eexists. split; [reflexivity|].
  pose proof (buildHTTPClientFromBytes_transport
                (Scenario.env Scenario.sshHelper Scenario.pingOk)
                (Some []) None None _ eq_refl) as H.
  simpl in H. split; apply H.
Defined.

(** ** NewClient *)

Section Builders.

Context {Certificate CertPool DialFunc Client : Type}.

Local Abbreviation Env := (Env Certificate CertPool DialFunc Client).
Local Abbreviation Event := (Event Certificate CertPool DialFunc Client).
Local Abbreviation Opt := (Opt Certificate CertPool DialFunc).

Local Arguments buildHTTPClientFromBytes : simpl never.

Lemma client_or_error (r : Client + error) :
  (exists cli, Return (client_of r) (err_of r) = Return (Some cli) None) \/
  (exists err, Return (client_of r) (err_of r) = Return None (Some err)).
Proof. destruct r as [cli|err]; simpl; eauto. Qed.

(** X14: [NewClient] never panics and returns either a client with a nil
    error or a nil client with an error, never both and never neither. *)
Theorem NewClient_returns_client_or_error (env : Env) (h : Store.t)
    (c : Config) :
  (exists cli, (NewClient env h c).2 = Return (Some cli) None) \/
  (exists err, (NewClient env h c).2 = Return None (Some err)).
Proof.
  unfold NewClient, returnNewClient.
  destruct (nonempty (Cert c) || nonempty (Key c)).
  - destruct (negb (nonempty (Cert c)) || negb (nonempty (Key c)));
      [simpl; eauto|].
    destruct (nonempty (CertPath c)); [simpl; eauto|].
    destruct (buildHTTPClientFromBytes env _ _ _) as [tr [httpClient|err]];
      simpl; [apply client_or_error | eauto].
  - destruct (nonempty (CertPath c)); [apply client_or_error|].
    destruct (connhelper_GetConnectionHelperWithSSHOpts env _ _)
      as [[helper|]|err]; simpl; [apply client_or_error.. | eauto].
Qed.

(** X15: with cert or key material set, [NewClient] returns the pair error
    when one of the two is empty and the cert-path error when both are set
    together with a cert path, in both cases without calling any other
    package. *)
Theorem NewClient_cert_key_conflict (env : Env) (h : Store.t) (c : Config) :
  Cert c <> "" \/ Key c <> "" ->
  (Cert c = "" \/ Key c = "" ->
   NewClient env h c = ([], Return None (Some errPair))) /\
  (Cert c <> "" -> Key c <> "" -> CertPath c <> "" ->
   NewClient env h c = ([], Return None (Some errCertPath))).
Proof.
  intros Hset. unfold NewClient.
  destruct c as [host opts ca cert key certPath]; simpl in *.
  destruct cert, key, certPath; simpl; repeat split; intros;
    try reflexivity; try solve [intuition congruence].
Qed.

(** X16: [NewClient] resolves a connection helper only for a
    configuration without cert material, key material and cert path, and
    then from the configuration's host and its SSH options as the store
    holds them. *)
Theorem NewClient_helper_resolution (env : Env) (h : Store.t) (c : Config)
    (daemonURL : string) (sshFlags : list string) :
  In (CallGetConnectionHelper daemonURL sshFlags : Event)
     (NewClient env h c).1 ->
  daemonURL = Host c /\ sshFlags = Store.elems h (SSHOpts c) /\
  Cert c = "" /\ Key c = "" /\ CertPath c = "".
Proof.
  unfold NewClient, returnNewClient.
  destruct c as [host opts ca cert key certPath]; simpl.
  destruct cert as [|x cert], key as [|y key]; simpl;
    [| intros [] | intros [] |].
  - destruct certPath as [|z certPath]; simpl;
      [|intros [H|[]]; discriminate H].
    destruct (connhelper_GetConnectionHelperWithSSHOpts env _ _)
      as [[helper|]|err]; simpl; intros [H|H];
      try (inversion H; subst; auto);
      try (destruct H as [H|[]]; discriminate H).
  - destruct certPath as [|z certPath]; simpl; [|intros []].
    pose proof (buildHTTPClientFromBytes_calls env
                  (Some (bytes_of_string ca))
                  (Some (bytes_of_string (String x cert)))
                  (Some (bytes_of_string (String y key)))) as F.
    rewrite List.Forall_forall in F.
    destruct (buildHTTPClientFromBytes env _ _ _) as [tr [httpClient|err]];
      simpl in *.
    + rewrite in_app_iff. intros [H|[H|[]]]; [|discriminate H].
      destruct (F _ H).
    + intros H. destruct (F _ H).
Qed.

End Builders.

Lemma NewClient_helper_resolution_witness :
  "ssh://user@h" = Host Scenario.default2 /\
  ["-p"; "22"] = Store.elems Scenario.store2 (SSHOpts Scenario.default2) /\
  Cert Scenario.default2 = "" /\ Key Scenario.default2 = "" /\
  CertPath Scenario.default2 = "".
Proof.
  apply (NewClient_helper_resolution
           (Scenario.env Scenario.sshHelper Scenario.pingOk)
           Scenario.store2 Scenario.default2 "ssh://user@h" ["-p"; "22"]).
  vm_compute. left. reflexivity.
Defined.

Lemma NewClient_cert_key_conflict_witness :
  let c := mkConfig "tcp://d:2375" nilSlice "" "CERT" "" "" in
  (Cert c = "" \/ Key c = "" ->
   NewClient (Scenario.env Scenario.sshHelper Scenario.pingOk) ∅ c
   = ([], Return None (Some errPair))) /\
  (Cert c <> "" -> Key c <> "" -> CertPath c <> "" ->
   NewClient (Scenario.env Scenario.sshHelper Scenario.pingOk) ∅ c
   = ([], Return None (Some errCertPath))).
Proof.
  apply (NewClient_cert_key_conflict
           (Scenario.env Scenario.sshHelper Scenario.pingOk) ∅
           (mkConfig "tcp://d:2375" nilSlice "" "CERT" "" "")).
  left. simpl. discriminate.
Defined.

(** ** MakeClient, continued *)

Lemma NewConfig_fields_stable (h h' : Store.t) (d : ResourceData) :
  let a := (NewConfig h d).2 in
  let b := (NewConfig h' d).2 in
  Host a = Host b /\ Ca a = Ca b /\ Cert a = Cert b /\ Key a = Key b /\
  CertPath a = CertPath b.
Proof. destruct d as [[|o rest]]; repeat split. Qed.

(** The string fields of the resolved configuration depend on the default
    and the resource data only. *)
Lemma getConfig_fields_stable {Client : Type} (c c' : ProviderConfig Client)
    (h h' : Store.t) (d : option ResourceData) :
  DefaultConfig c = DefaultConfig c' ->
  let a := (getConfig c h d).2 in
  let b := (getConfig c' h' d).2 in
  Host a = Host b /\ Ca a = Ca b /\ Cert a = Cert b /\ Key a = Key b /\
  CertPath a = CertPath b.
Proof.
  intros Hdef. unfold getConfig. rewrite !Store_copy_self, <- Hdef.
  destruct d as [d|]; [|repeat split].
  pose proof (NewConfig_fields_stable h h' d) as N.
  destruct (NewConfig h d) as [h1 rc], (NewConfig h' d) as [h1' rc'].
  simpl in N. destruct N as (N1 & N2 & N3 & N4 & N5).
  pose proof (applyOverride_strings h1 (DefaultConfig c) rc) as A.
  pose proof (applyOverride_strings h1' (DefaultConfig c) rc') as B.
  cbv beta iota zeta in A, B |- *.
  destruct A as (-> & -> & -> & -> & ->), B as (-> & -> & -> & -> & ->).
  now rewrite N1, N2, N3, N4, N5.
Qed.

Lemma getConfig_Hash_stable {Client : Type} (c c' : ProviderConfig Client)
    (h h' : Store.t) (d : option ResourceData) :
  DefaultConfig c = DefaultConfig c' ->
  Hash (getConfig c h d).1 (getConfig c h d).2 =
  Hash (getConfig c' h' d).1 (getConfig c' h' d).2.
Proof.
  intros Hdef.
  destruct (getConfig_fields_stable c c' h h' d Hdef)
    as (E1 & E2 & E3 & E4 & E5).
  unfold Hash. rewrite !Hash_input_eq.
  now rewrite E1, E2, E3, E4, E5.
Qed.

Lemma nonempty_false (s : string) : nonempty s = false -> s = "".
Proof. destruct s; [reflexivity | discriminate]. Qed.

Section CacheMore.

Context {Certificate CertPool DialFunc Client : Type}.

Local Abbreviation Env := (Env Certificate CertPool DialFunc Client).
Local Abbreviation Event := (Event Certificate CertPool DialFunc Client).
Local Abbreviation Opt := (Opt Certificate CertPool DialFunc).

Local Arguments buildHTTPClientFromBytes : simpl never.

Lemma client_of_Some (r : Client + error) (cli : Client) :
  client_of r = Some cli -> r = inl cli.
Proof. destruct r; simpl; congruence. Qed.

(** Leaving [MakeClient] from inside the branches is always with an
    error. *)
Lemma MakeClient_branches_early (env : Env) (config : Config)
    (out : Outcome Client) :
  (MakeClient_branches env config).2 = inl out ->
  exists err, out = Return None (Some err).
Proof.
  unfold MakeClient_branches.
  destruct (nonempty (Cert config) || nonempty (Key config)).
  - destruct (negb (nonempty (Cert config)) || negb (nonempty (Key config)));
      [intros [= <-]; eauto|].
    destruct (nonempty (CertPath config)); [intros [= <-]; eauto|].
    destruct (buildHTTPClientFromBytes env _ _ _) as [tr [httpClient|err]];
      simpl; [discriminate | intros [= <-]; eauto].
  - destruct (nonempty (CertPath config)); [discriminate|].
    destruct (strings_HasPrefix (Host config) "ssh://"); [|discriminate].
    destruct (connhelper_GetConnectionHelperWithSSHOpts env _ _)
      as [[helper|]|err]; simpl; try discriminate.
    intros [= <-]; eauto.
Qed.

(** A client that leaves the branches was constructed there. *)
Lemma MakeClient_branches_built (env : Env) (config : Config)
    (cli : Client) (e : option error) :
  (MakeClient_branches env config).2 = inr (Some cli, e) ->
  exists ops,
    In (CallNewClientWithOpts ops : Event) (MakeClient_branches env config).1 /\
    client_NewClientWithOpts env ops = inl cli.
Proof.
  unfold MakeClient_branches.
  destruct (nonempty (Cert config) || nonempty (Key config)).
  - destruct (negb (nonempty (Cert config)) || negb (nonempty (Key config)));
      [discriminate|].
    destruct (nonempty (CertPath config)); [discriminate|].
    destruct (buildHTTPClientFromBytes env _ _ _) as [tr [httpClient|err]];
      simpl; [|discriminate].
    intros [= H]. apply client_of_Some in H.
    eexists. split; [|exact H]. apply in_app_iff. right. now left.
  - destruct (nonempty (CertPath config)).
    { simpl. intros [= H _]. apply client_of_Some in H.
      eexists. split; [now left | exact H]. }
    destruct (strings_HasPrefix (Host config) "ssh://").
    + destruct (connhelper_GetConnectionHelperWithSSHOpts env _ _)
        as [[helper|]|err]; simpl; try discriminate.
      intros [= H]. apply client_of_Some in H.
      eexists. split; [right; now left | exact H].
    + simpl. intros [= H _]. apply client_of_Some in H.
      eexists. split; [now left | exact H].
Qed.

(** The length of the SSH options [NewConfig] reads. *)
Lemma NewConfig_len (h : Store.t) (d : ResourceData) :
  len (SSHOpts (NewConfig h d).2) =
  match override d with
  | [] => 0%nat
  | o :: _ => length (o_ssh_opts o)
  end.
Proof. destruct d as [[|o rest]]; reflexivity. Qed.

(** Resolution writes into no existing array unless the override block
    carries SSH options. *)
Lemma getConfig_frame (c : ProviderConfig Client) (h : Store.t)
    (d : option ResourceData) (k : loc) (arr : list string) :
  (forall o rest, d = Some (mkResourceData (o :: rest)) -> o_ssh_opts o = []) ->
  h !! k = Some arr -> (getConfig c h d).1 !! k = Some arr.
Proof.
  intros Hno Hk. unfold getConfig. rewrite Store_copy_self.
  destruct d as [d|]; [|exact Hk].
  pose proof (NewConfig_frame h d k arr Hk) as Hf.
  pose proof (NewConfig_len h d) as Hl.
  destruct (NewConfig h d) as [h2 rc]. simpl in Hf, Hl.
  cbv beta iota zeta. rewrite applyOverride_store, Hl.
  destruct d as [[|o rest]]; simpl; [exact Hf|].
  rewrite (Hno o rest eq_refl). exact Hf.
Qed.

(** [MakeClient] writes into memory through [getConfig] only. *)
Lemma MakeClient_store (env : Env) (c : ProviderConfig Client)
    (h : Store.t) (d : option ResourceData) :
  (MakeClient env c h d).1.1.1 = (getConfig c h d).1.
Proof.
  unfold MakeClient.
  destruct (getConfig c h d) as [h1 config]. simpl.
  destruct (clientCache c !! Hash h1 config) as [cached|]; [reflexivity|].
  destruct (MakeClient_branches env config) as [tr [out|[dockerClient [e|]]]];
    try reflexivity.
  destruct (pingAndReturn env dockerClient) as [tr' out]. reflexivity.
Qed.

(** X17: [MakeClient] never removes or replaces a cache entry and touches
    no cache key other than the fingerprint of the resolved configuration;
    it leaves the [DefaultConfig] struct (string fields and slice header)
    as it is; the memory after the call is the memory [getConfig] leaves,
    in which every array that existed before is unchanged when the
    resource data is nil, has no override block, or has a block without
    SSH options. *)
Theorem MakeClient_cache_only_grows (env : Env) (c : ProviderConfig Client)
    (h : Store.t) (d : option ResourceData) :
  let r := MakeClient env c h d in
  r.1.1.1 = (getConfig c h d).1 /\
  ((forall o rest, d = Some (mkResourceData (o :: rest)) ->
                   o_ssh_opts o = []) ->
   forall k arr, h !! k = Some arr -> r.1.1.1 !! k = Some arr) /\
  DefaultConfig r.1.1.2 = DefaultConfig c /\
  (forall k v, clientCache c !! k = Some v ->
               clientCache r.1.1.2 !! k = Some v) /\
  (forall k, k <> Hash (getConfig c h d).1 (getConfig c h d).2 ->
             clientCache r.1.1.2 !! k = clientCache c !! k).
Proof.
  cbv zeta. split; [apply MakeClient_store|].
  split.
  { intros Hno k arr Hk. rewrite MakeClient_store.
    now apply getConfig_frame. }
  unfold MakeClient.
  destruct (getConfig c h d) as [h1 config]. simpl.
  destruct (clientCache c !! Hash h1 config) as [cached|] eqn:Hload;
    [simpl; auto|].
  destruct (MakeClient_branches env config) as [tr [out|[dockerClient [e|]]]];
    simpl; auto.
  destruct (pingAndReturn env dockerClient) as [tr' out]. simpl.
  unfold LoadOrStore. rewrite Hload.
  repeat split.
  - intros k v Hk. rewrite lookup_insert_ne; [exact Hk | congruence].
  - intros k Hk. rewrite lookup_insert_ne; [reflexivity | congruence].
Qed.

(** A returned client sits in the cache under the fingerprint. *)
Lemma MakeClient_success_cached (env : Env) (c : ProviderConfig Client)
    (h : Store.t) (d : option ResourceData) (cli : Client) :
  (MakeClient env c h d).2 = Return (Some cli) None ->
  DefaultConfig (MakeClient env c h d).1.1.2 = DefaultConfig c /\
  clientCache (MakeClient env c h d).1.1.2
    !! Hash (getConfig c h d).1 (getConfig c h d).2 = Some (Some cli).
Proof.
  unfold MakeClient.
  destruct (getConfig c h d) as [h1 config]. simpl.
  destruct (clientCache c !! Hash h1 config) as [cached|] eqn:Hload.
  { simpl. intros [= ->]. auto. }
  pose proof (MakeClient_branches_early env config) as Early.
  destruct (MakeClient_branches env config) as [tr [out|[dockerClient [e|]]]];
    simpl in *.
  - intros ->. destruct (Early _ eq_refl) as [err H]. discriminate H.
  - discriminate.
  - unfold pingAndReturn.
    destruct dockerClient as [cli'|]; simpl; [|discriminate].
    destruct (client_Ping env cli'); simpl; [discriminate|].
    intros [= ->]. split; [reflexivity|].
    unfold LoadOrStore. rewrite Hload. apply lookup_insert_eq.
Qed.

(** X18: once [MakeClient] has returned a client, a further call with the
    same resource data returns that client again with a nil error,
    whatever the daemon and the memory have become, without calling any
    other package; the provider record (the [DefaultConfig] struct and the
    cache) stays as it is, and the memory after the repeated call is the
    memory [getConfig] leaves: every array is unchanged when the resource
    data is nil, has no override block, or has a block without SSH
    options (with SSH options in the block, [getConfig] overwrites the
    default's SSH options again). *)
Theorem MakeClient_repeat (env env' : Env) (c : ProviderConfig Client)
    (h h' : Store.t) (d : option ResourceData) (cli : Client) :
  (MakeClient env c h d).2 = Return (Some cli) None ->
  let c' := (MakeClient env c h d).1.1.2 in
  MakeClient env' c' h' d
  = ((getConfig c' h' d).1, c', [], Return (Some cli) None) /\
  ((forall o rest, d = Some (mkResourceData (o :: rest)) ->
                   o_ssh_opts o = []) ->
   forall k arr, h' !! k = Some arr ->
                 (MakeClient env' c' h' d).1.1.1 !! k = Some arr).
Proof.
  intros Hok c'.
  destruct (MakeClient_success_cached env c h d cli Hok) as [Hdef Hcached].
  fold c' in Hdef, Hcached.
  split.
  - apply (MakeClient_on_hit env' c' h' d _ (getConfig c' h' d).2).
    + now destruct (getConfig c' h' d).
    + rewrite (getConfig_Hash_stable c' c h' h d Hdef). exact Hcached.
  - intros Hno k arr Hk. rewrite MakeClient_store.
    now apply getConfig_frame.
Qed.

(** X19: on a cache miss a client is returned only after it was
    constructed in this call and its ping succeeded. *)
Theorem MakeClient_returns_pinged_client (env : Env)
    (c : ProviderConfig Client) (h : Store.t) (d : option ResourceData)
    (cli : Client) :
  clientCache c !! Hash (getConfig c h d).1 (getConfig c h d).2 = None ->
  (MakeClient env c h d).2 = Return (Some cli) None ->
  client_Ping env cli = None /\
  In (CallPing cli : Event) (MakeClient env c h d).1.2 /\
  exists ops,
    In (CallNewClientWithOpts ops : Event) (MakeClient env c h d).1.2 /\
    client_NewClientWithOpts env ops = inl cli.
Proof.
  unfold MakeClient.
  destruct (getConfig c h d) as [h1 config]. simpl.
  intros ->.
  pose proof (MakeClient_branches_early env config) as Early.
  pose proof (MakeClient_branches_built env config) as Built.
  destruct (MakeClient_branches env config) as [tr [out|[dockerClient [e|]]]];
    simpl in *.
  - intros ->. destruct (Early _ eq_refl) as [err H]. discriminate H.
  - discriminate.
  - unfold pingAndReturn.
    destruct dockerClient as [cli'|]; simpl; [|discriminate].
    destruct (client_Ping env cli') eqn:Hping; simpl; [discriminate|].
    intros [= ->]. split; [exact Hping|].
    split; [apply in_app_iff; right; now left|].
    destruct (Built cli None eq_refl) as (ops & Hin & Hops).
    exists ops. split; [apply in_app_iff; now left | exact Hops].
Qed.

(** X20: when [MakeClient] returns an error without having pinged a
    client, the provider record (the [DefaultConfig] struct and the client
    cache) is the one before the call, and the memory is the memory
    [getConfig] leaves: every array is unchanged when the resource data is
    nil, has no override block, or has a block without SSH options (with
    SSH options in the block, the default's SSH options have been
    overwritten by [getConfig] even though the call fails). *)
Theorem MakeClient_error_before_ping (env : Env) (c : ProviderConfig Client)
    (h : Store.t) (d : option ResourceData) (err : error) :
  (MakeClient env c h d).2 = Return None (Some err) ->
  (forall cli, ~ In (CallPing cli : Event) (MakeClient env c h d).1.2) ->
  (MakeClient env c h d).1.1 = ((getConfig c h d).1, c) /\
  ((forall o rest, d = Some (mkResourceData (o :: rest)) ->
                   o_ssh_opts o = []) ->
   forall k arr, h !! k = Some arr ->
                 (MakeClient env c h d).1.1.1 !! k = Some arr).
Proof.
  intros Herr Hno. split.
  - revert Herr Hno. unfold MakeClient.
    destruct (getConfig c h d) as [h1 config].
    destruct (clientCache c !! Hash h1 config) as [cached|]; [reflexivity|].
    destruct (MakeClient_branches env config)
      as [tr [out|[dockerClient [e|]]]]; try reflexivity.
    unfold pingAndReturn.
    destruct dockerClient as [cli|]; simpl; [|discriminate].
    intros _ Hno. exfalso. apply (Hno cli).
    destruct (client_Ping env cli); simpl; apply in_app_iff; right; now left.
  - intros Hnone k arr Hk. rewrite MakeClient_store.
    now apply getConfig_frame.
Qed.

(** The options of the cert-path branch and of the direct branch. *)
Lemma MakeClient_branches_plain (env : Env) (config : Config) :
  Cert config = "" -> Key config = "" ->
  CertPath config <> "" \/
  strings_HasPrefix (Host config) "ssh://" = false ->
  let ops : list Opt :=
    if nonempty (CertPath config)
    then [WithHost (Host config); tlsFiles env (CertPath config);
          WithAPIVersionNegotiation]
    else [WithHost (Host config); WithAPIVersionNegotiation] in
  MakeClient_branches env config =
  ([CallNewClientWithOpts ops],
   inr (client_of (client_NewClientWithOpts env ops),
        err_of (client_NewClientWithOpts env ops))).
Proof.
  intros HCert HKey Hbranch. unfold MakeClient_branches.
  rewrite HCert, HKey. simpl.
  destruct (nonempty (CertPath config)) eqn:HPath; [reflexivity|].
  destruct Hbranch as [Hp | ->]; [|reflexivity].
  apply nonempty_false in HPath. contradiction.
Qed.

(** X21: once the configuration is resolved to one without cert and key
    material that has a cert path or a host not starting with [ssh://],
    [MakeClient] does not panic; and on a cache miss an error of the one
    client construction it attempts is returned as the error of the call,
    with no client, no ping and the provider unchanged. *)
Theorem MakeClient_no_panic (env : Env) (c : ProviderConfig Client)
    (h : Store.t) (d : option ResourceData) (h1 : Store.t) (config : Config) :
  getConfig c h d = (h1, config) ->
  Cert config = "" -> Key config = "" ->
  CertPath config <> "" \/
  strings_HasPrefix (Host config) "ssh://" = false ->
  let ops : list Opt :=
    if nonempty (CertPath config)
    then [WithHost (Host config); tlsFiles env (CertPath config);
          WithAPIVersionNegotiation]
    else [WithHost (Host config); WithAPIVersionNegotiation] in
  (forall msg, (MakeClient env c h d).2 <> Panic msg) /\
  (clientCache c !! Hash h1 config = None ->
   forall err, client_NewClientWithOpts env ops = inr err ->
   MakeClient env c h d
   = (h1, c, [CallNewClientWithOpts ops], Return None (Some err))).
Proof.
  intros Hcfg HCert HKey Hbranch ops.
  pose proof (MakeClient_branches_plain env config HCert HKey Hbranch) as Hbr.
  cbv zeta in Hbr. fold ops in Hbr.
  split.
  - intros msg.
    destruct (clientCache c !! Hash h1 config) as [cached|] eqn:Hload.
    { rewrite (MakeClient_on_hit env c h d h1 config cached Hcfg Hload).
      discriminate. }
    rewrite (MakeClient_on_miss env c h d h1 config Hcfg Hload), Hbr.
    destruct (client_NewClientWithOpts env ops) as [cli|err];
      simpl; [|discriminate].
    destruct (client_Ping env cli); discriminate.
  - intros Hmiss err Hnew.
    rewrite (MakeClient_on_miss env c h d h1 config Hcfg Hmiss), Hbr, Hnew.
    reflexivity.
Qed.

(** X22: with cert and key material, no cert path and a loader that
    succeeds, a failing client construction is not reported: the error is
    dropped, a nil pointer is cached under the fingerprint and the call
    panics. *)
Theorem MakeClient_inline_TLS_drops_error (env : Env)
    (c : ProviderConfig Client) (h : Store.t) (d : option ResourceData)
    (h1 : Store.t) (config : Config) (tr : list Event)
    (httpClient : http_Client Certificate CertPool) (err : error) :
  getConfig c h d = (h1, config) ->
  clientCache c !! Hash h1 config = None ->
  Cert config <> "" -> Key config <> "" -> CertPath config = "" ->
  buildHTTPClientFromBytes env (Some (bytes_of_string (Ca config)))
    (Some (bytes_of_string (Cert config)))
    (Some (bytes_of_string (Key config))) = (tr, inl httpClient) ->
  client_NewClientWithOpts env
    [WithHTTPClient httpClient; WithHost (Host config);
     WithAPIVersionNegotiation] = inr err ->
  MakeClient env c h d =
  (h1,
   mkProviderConfig (DefaultConfig c)
     (<[Hash h1 config := None]> (clientCache c)),
   tr ++ [CallNewClientWithOpts
            [WithHTTPClient httpClient; WithHost (Host config);
             WithAPIVersionNegotiation]],
   Panic "invalid memory address or nil pointer dereference").
Proof.
  intros Hcfg Hmiss HCert HKey HPath Hbuild Hnew.
  rewrite (MakeClient_on_miss env c h d h1 config Hcfg Hmiss).
  unfold MakeClient_branches. rewrite Hbuild, HPath.
  destruct (Cert config); [contradiction|].
  destruct (Key config); [contradiction|].
  simpl. rewrite Hnew. simpl.
  unfold LoadOrStore. rewrite Hmiss. now rewrite app_nil_r.
Qed.

Ltac in_order :=
  split; [reflexivity|];
  split; [eexists; simpl; eauto|];
  let hc := fresh "hc" in
  let H := fresh "H" in
  intros hc H; simpl in H;
  repeat (destruct H as [H|H]; [try discriminate H; now inversion H|]);
  destruct H.

Lemma MakeClient_branches_ops (env : Env) (config : Config)
    (ops : list Opt) :
  In (CallNewClientWithOpts ops : Event) (MakeClient_branches env config).1 ->
  options_in_order ops.
Proof.
  unfold MakeClient_branches, options_in_order.
  destruct (nonempty (Cert config) || nonempty (Key config)).
  - destruct (negb (nonempty (Cert config)) || negb (nonempty (Key config)));
      [intros []|].
    destruct (nonempty (CertPath config)); [intros []|].
    pose proof (buildHTTPClientFromBytes_calls env
                  (Some (bytes_of_string (Ca config)))
                  (Some (bytes_of_string (Cert config)))
                  (Some (bytes_of_string (Key config)))) as F.
    rewrite List.Forall_forall in F.
    destruct (buildHTTPClientFromBytes env _ _ _) as [tr [httpClient|err]];
      simpl in *; [|intros H; destruct (F _ H)].
    rewrite in_app_iff. intros [H|[[= <-]|[]]]; [destruct (F _ H)|].
    in_order.
  - destruct (nonempty (CertPath config)).
    { intros [[= <-]|[]]. in_order. }
    destruct (strings_HasPrefix (Host config) "ssh://").
    + destruct (connhelper_GetConnectionHelperWithSSHOpts env _ _)
        as [[helper|]|err]; simpl;
        try (intros [H|[]]; discriminate H).
      intros [H|[[= <-]|[]]]; [discriminate H|]. in_order.
    + intros [[= <-]|[]]. in_order.
Qed.

(** X23: every client [MakeClient] constructs is constructed with a host
    option and with API version negotiation as the last option, and a
    custom HTTP client, when there is one, is the first option. *)
Theorem MakeClient_constructions (env : Env) (c : ProviderConfig Client)
    (h : Store.t) (d : option ResourceData) (ops : list Opt) :
  In (CallNewClientWithOpts ops : Event) (MakeClient env c h d).1.2 ->
  options_in_order ops.
Proof.
  unfold MakeClient.
  destruct (getConfig c h d) as [h1 config].
  destruct (clientCache c !! Hash h1 config); [intros []|].
  pose proof (MakeClient_branches_ops env config ops) as Hbr.
  destruct (MakeClient_branches env config) as [tr [out|[dockerClient [e|]]]];
    simpl in *; try exact Hbr.
  unfold pingAndReturn.
  destruct dockerClient as [cli|]; [destruct (client_Ping env cli)|];
    simpl; rewrite in_app_iff; simpl;
    intros [H|H]; try (apply Hbr; exact H);
    try (destruct H as [H|[]]; discriminate H); destruct H.
Qed.

(** X24: every client [NewClient] constructs is constructed with a host
    option and with API version negotiation as the last option, and a
    custom HTTP client, when there is one, is the first option. *)
Theorem NewClient_constructions (env : Env) (h : Store.t) (c : Config)
    (ops : list Opt) :
  In (CallNewClientWithOpts ops : Event) (NewClient env h c).1 ->
  options_in_order ops.
Proof.
  unfold NewClient, returnNewClient, options_in_order.
  destruct (nonempty (Cert c) || nonempty (Key c)).
  - destruct (negb (nonempty (Cert c)) || negb (nonempty (Key c)));
      [intros []|].
    destruct (nonempty (CertPath c)); [intros []|].
    pose proof (buildHTTPClientFromBytes_calls env
                  (Some (bytes_of_string (Ca c)))
                  (Some (bytes_of_string (Cert c)))
                  (Some (bytes_of_string (Key c)))) as F.
    rewrite List.Forall_forall in F.
    destruct (buildHTTPClientFromBytes env _ _ _) as [tr [httpClient|err]];
      simpl in *; [|intros H; destruct (F _ H)].
    rewrite in_app_iff. intros [H|[[= <-]|[]]]; [destruct (F _ H)|].
    in_order.
  - destruct (nonempty (CertPath c)).
    { intros [[= <-]|[]]. in_order. }
    destruct (connhelper_GetConnectionHelperWithSSHOpts env _ _)
      as [[helper|]|err]; simpl;
      try (intros [H|[]]; discriminate H);
      (intros [H|[[= <-]|[]]]; [discriminate H|]); in_order.
Qed.

End CacheMore.

Lemma MakeClient_resolves_without_flags_witness :
  @nil string = [].
Proof.
  apply (MakeClient_resolves_without_flags
           (Scenario.env Scenario.sshHelper Scenario.pingOk)
           Scenario.provider2 Scenario.store2 None "ssh://user@h" []).
  vm_compute. left. reflexivity.
Defined.

Lemma MakeClient_repeat_witness :
  let env := Scenario.env Scenario.sshHelper Scenario.pingOk in
  let env' := Scenario.env Scenario.sshHelper Scenario.pingDown in
  let c' := (MakeClient env Scenario.providerTcp ∅ None).1.1.2 in
  MakeClient env' c' Scenario.store2 None
  = (Scenario.store2, c', [], Return (Some Scenario.clientTcp) None) /\
  (MakeClient env' c' Scenario.store2 None).1.1.1 !! 0%nat
  = Some ["-p"; "22"].
Proof.
  intros env env' c'.
  destruct (MakeClient_repeat env env' Scenario.providerTcp ∅ Scenario.store2
              None Scenario.clientTcp) as [H1 H2].
  - vm_compute. reflexivity.
  - split.
    + exact H1.
    + apply H2; [discriminate | reflexivity].
Defined.

Lemma MakeClient_returns_pinged_client_witness :
  let env := Scenario.env Scenario.sshHelper Scenario.pingOk in
  client_Ping env Scenario.clientTcp = None /\
  In (CallPing Scenario.clientTcp)
     (MakeClient env Scenario.providerTcp ∅ None).1.2 /\
  exists ops,
    In (CallNewClientWithOpts ops)
       (MakeClient env Scenario.providerTcp ∅ None).1.2 /\
    client_NewClientWithOpts env ops = inl Scenario.clientTcp.
Proof.
  intros env.
  apply (MakeClient_returns_pinged_client env Scenario.providerTcp ∅ None
           Scenario.clientTcp).
  - vm_compute. reflexivity.
  - vm_compute. reflexivity.
Defined.

Lemma MakeClient_error_before_ping_witness :
  let env := Scenario.env Scenario.sshHelper Scenario.pingOk in
  let d := Some Scenario.overrideCertOnly in
  (MakeClient env Scenario.providerTcp Scenario.store2 d).1.1
  = ((getConfig Scenario.providerTcp Scenario.store2 d).1,
     Scenario.providerTcp) /\
  (MakeClient env Scenario.providerTcp Scenario.store2 d).1.1.1 !! 0%nat
  = Some ["-p"; "22"].
Proof.
  intros env d.
  destruct (MakeClient_error_before_ping env Scenario.providerTcp
              Scenario.store2 d errPair) as [H1 H2].
  - vm_compute. reflexivity.
  - intros cli H. vm_compute in H. exact H.
  - split.
    + exact H1.
    + apply H2; [|reflexivity].
      intros o rest E. inversion E. reflexivity.
Defined.

Lemma MakeClient_no_panic_witness :
  let ops := [WithHost "tcp://d:2375"; WithAPIVersionNegotiation] in
  (MakeClient Scenario.envNoClient Scenario.providerTcp ∅ None).2
  <> Panic "invalid memory address or nil pointer dereference" /\
  MakeClient Scenario.envNoClient Scenario.providerTcp ∅ None
  = (∅, Scenario.providerTcp, [CallNewClientWithOpts ops],
     Return None (Some "unable to parse docker host")).
Proof.
  intros ops.
  destruct (MakeClient_no_panic Scenario.envNoClient Scenario.providerTcp
              ∅ None ∅ Scenario.defaultTcp) as [H1 H2].
  - vm_compute. reflexivity.
  - reflexivity.
  - reflexivity.
  - right. reflexivity.
  - split.
    + apply H1.
    + apply H2; reflexivity.
Defined.

Lemma MakeClient_inline_TLS_drops_error_witness :
  let httpClient :=
    mkHTTPClient
      (with_TLS (defaultTransport Scenario.envNoClient)
         (mkTLS [(bytes_of_string "CERT", bytes_of_string "KEY")] true None)) in
  let ops := [WithHTTPClient httpClient; WithHost "tcp://d:2376";
              WithAPIVersionNegotiation] in
  MakeClient Scenario.envNoClient Scenario.providerTls ∅ None =
  (∅,
   mkProviderConfig Scenario.defaultTls
     (<[Hash ∅ Scenario.defaultTls := None]> ∅),
   [CallX509KeyPair (bytes_of_string "CERT") (bytes_of_string "KEY")]
     ++ [CallNewClientWithOpts ops],
   Panic "invalid memory address or nil pointer dereference").
Proof.
  intros httpClient ops.
  apply (MakeClient_inline_TLS_drops_error Scenario.envNoClient
           Scenario.providerTls ∅ None ∅ Scenario.defaultTls
           [CallX509KeyPair (bytes_of_string "CERT") (bytes_of_string "KEY")]
           httpClient "unable to parse docker host").
  - vm_compute. reflexivity.
  - reflexivity.
  - simpl. discriminate.
  - simpl. discriminate.
  - reflexivity.
  - reflexivity.
  - reflexivity.
Defined.

Lemma MakeClient_constructions_witness :
  options_in_order Scenario.clientTcp.
Proof.
  apply (MakeClient_constructions
           (Scenario.env Scenario.sshHelper Scenario.pingOk)
           Scenario.providerTcp ∅ None Scenario.clientTcp).
  vm_compute. left. reflexivity.
Defined.

Lemma NewClient_constructions_witness :
  options_in_order
    [WithHost "http://docker.example.com";
     WithDialContext ["-p"; "22"; "ssh://user@h"; "docker"; "system";
                      "dial-stdio"];
     WithAPIVersionNegotiation : Opt Scenario.Certificate Scenario.CertPool
                                     Scenario.DialFunc].
Proof.
  apply (NewClient_constructions
           (Scenario.env Scenario.sshHelper Scenario.pingOk)
           Scenario.store2 Scenario.default2).
  vm_compute. right. left. reflexivity.
Defined.

(** ** The refresh function of the volume resource *)

Section VolumeRefresh.

Context {Certificate CertPool DialFunc Client : Type}.
Variable env : Env Certificate CertPool DialFunc Client.
Variable client_VolumeRemove : Client -> string -> bool -> option error.
Variable containsIgnorableErrorMessage : string -> string -> bool.

Local Abbreviation refresh :=
  (resourceDockerVolumeRemoveRefreshFunc env client_VolumeRemove
     containsIgnorableErrorMessage).

(** X25: when the refresh function returns, it reports the state
    [in_use] or [removed] together with the volume id and a nil error, or
    an error together with a nil result and the empty state; no other
    state is ever reported. *)
Theorem refresh_states (c : ProviderConfig Client) (h : Store.t)
    (d : Resource) (result : option string) (state : string)
    (err : option error) :
  (refresh c h d).2 = RefreshReturn result state err ->
  (err = None /\ result = Some (r_id d) /\
   (state = "in_use" \/ state = "removed")) \/
  (exists e, err = Some e /\ result = None /\ state = "").
Proof.
  unfold resourceDockerVolumeRemoveRefreshFunc.
  destruct (MakeClient env c h (Some (r_data d))) as [[[h1 c1] tr] out].
  destruct out as [[cli|] [errC|]|msg]; simpl; try discriminate;
    try (intros [= <- <- <-]; right; eauto).
  destruct (client_VolumeRemove cli (r_id d) true) as [e|].
  - destruct (containsIgnorableErrorMessage e "volume is in use");
      simpl; intros [= <- <- <-]; [left; auto | right; eauto].
  - simpl. intros [= <- <- <-]. left. auto.
Qed.

(** X26: the refresh function removes a volume at most once per call,
    always by force, always the volume of the resource, and only on a
    client that [MakeClient] has returned without error. *)
Theorem refresh_removes_by_force (c : ProviderConfig Client) (h : Store.t)
    (d : Resource) (cli : Client) (volumeID : string) (force : bool) :
  In (CallVolumeRemove cli volumeID force) (refresh c h d).1.2 ->
  (refresh c h d).1.2 = [CallVolumeRemove cli (r_id d) true] /\
  volumeID = r_id d /\ force = true /\
  (MakeClient env c h (Some (r_data d))).2 = Return (Some cli) None.
Proof.
  unfold resourceDockerVolumeRemoveRefreshFunc.
  destruct (MakeClient env c h (Some (r_data d))) as [[[h1 c1] tr] out].
  destruct out as [[cli'|] [errC|]|msg]; simpl; try (intros []).
  destruct (client_VolumeRemove cli' (r_id d) true) as [e|];
    [destruct (containsIgnorableErrorMessage e "volume is in use")|];
    simpl; intros [[= <- <- <-]|[]]; auto.
Qed.

End VolumeRefresh.

Lemma refresh_states_witness :
  (@None error = None /\ Some "vol1" = Some (r_id Scenario.volume1) /\
   ("in_use" = "in_use" \/ "in_use" = "removed")) \/
  (exists e : error, None = Some e /\ Some "vol1" = None /\ "in_use" = "").
Proof.
  apply (refresh_states (Scenario.env Scenario.sshHelper Scenario.pingOk)
           Scenario.removeInUse Scenario.sameMessage
           Scenario.providerTcp ∅ Scenario.volume1
           (Some "vol1") "in_use" None).
  vm_compute. reflexivity.
Defined.

Lemma refresh_removes_by_force_witness :
  let env := Scenario.env Scenario.sshHelper Scenario.pingOk in
  (resourceDockerVolumeRemoveRefreshFunc env Scenario.removeOk
     Scenario.sameMessage Scenario.providerTcp ∅ Scenario.volume1).1.2
    = [CallVolumeRemove Scenario.clientTcp (r_id Scenario.volume1) true] /\
  "vol1" = r_id Scenario.volume1 /\ true = true /\
  (MakeClient env Scenario.providerTcp ∅
     (Some (r_data Scenario.volume1))).2
    = Return (Some Scenario.clientTcp) None.
Proof.
  intros env.
  apply (refresh_removes_by_force env Scenario.removeOk Scenario.sameMessage
           Scenario.providerTcp ∅ Scenario.volume1 Scenario.clientTcp
           "vol1" true).
  vm_compute. left. reflexivity.
Defined.
